(** * TextToSpeechPipeline: a shallow embedding of
    [src/transformers/pipelines/text_to_speech.py].

    The pipeline is glue code around external collaborators (the input
    processor, the model's generation methods, the vocoder loader, the
    speaker-embedding dataset).  Python values are modelled by the type
    [pyval], keyword dictionaries by [gmap string pyval], exceptions by
    [result], and every call to a collaborator is recorded in a log of
    [event]s, so that "what was passed to the backend" is a statement about
    the log.

    Conventions: a dictionary is a finite map (the order of keyword
    arguments plays no role in the pipeline); [torch.no_grad()] has no
    counterpart; [_forward] updates [model_inputs] in place, which is
    modelled by the updated dictionary being the one handed to [generate];
    objects the pipeline only passes around (processors, strings of text)
    are values it never inspects. *)

From Stdlib Require Import ZArith.
From stdpp Require Import gmap strings list fin_maps.

Local Open Scope string_scope.
Set Warnings "-register-all".

(** ** Python values *)

(** A [SpeechT5HifiGan] instance, as far as the pipeline looks at it:
    [vocoder.config.sampling_rate] and the device [.to(...)] moved it to. *)
Record hifigan := HifiGan {
  hg_sampling_rate : Z;
  hg_device : string
}.

(** [SpeechT5HifiGan.to(device)]. *)
Definition hg_to (h : hifigan) (d : string) : hifigan :=
  {| hg_sampling_rate := hg_sampling_rate h; hg_device := d |}.

(** A tensor as nested rows.  The pipeline never computes on the elements;
    a scalar carries the bit pattern of its number. *)
Inductive tensor :=
| TScalar (bits : Z)
| TDim (rows : list tensor).

Inductive pyval :=
| PNone
| PBool (b : bool)
| PInt (z : Z)
| PFloat (bits : Z)
| PStr (s : string)
| PList (items : list pyval)
| PDict (items : list (string * pyval))
| PTensor (t : tensor)
| PVocoder (h : hifigan)
| PObject (cls : string) (id : nat).

(** Python keyword dictionaries ([**kwargs], [BatchEncoding], [to_dict()]). *)
Abbreviation pydict := (gmap string pyval).

Inductive exn :=
| ValueError (msg : string)
| TypeError
| KeyError
| IndexError
| AttributeError
| ExternalError (tag : string).

Inductive result (A : Type) :=
| Ok (a : A)
| Raise (e : exn).
Arguments Ok {A} a.
Arguments Raise {A} e.

(** [x is None] *)
Definition is_None (v : pyval) : bool :=
  match v with PNone => true | _ => false end.

(** [isinstance(x, str)] *)
Definition is_str (v : pyval) : bool :=
  match v with PStr _ => true | _ => false end.

(** [isinstance(x, SpeechT5HifiGan)] *)
Definition is_SpeechT5HifiGan (v : pyval) : bool :=
  match v with PVocoder _ => true | _ => false end.

(** [d.get(k, None)] *)
Definition dict_get (d : pydict) (k : string) : pyval :=
  default PNone (d !! k).

(** [d[k]] on a keyword dictionary *)
Definition dict_getitem (d : pydict) (k : string) : result pyval :=
  match d !! k with
  | Some v => Ok v
  | None => Raise KeyError
  end.

(** [len(x)] *)
Definition py_len (v : pyval) : result nat :=
  match v with
  | PStr s => Ok (String.length s)
  | PList l => Ok (length l)
  | PDict d => Ok (length d)
  | PTensor (TDim rows) => Ok (length rows)
  | _ => Raise TypeError
  end.

(** [x[0]] *)
Definition py_getitem0 (v : pyval) : result pyval :=
  match v with
  | PStr (String c _) => Ok (PStr (String c EmptyString))
  | PStr EmptyString => Raise IndexError
  | PList (x :: _) => Ok x
  | PList [] => Raise IndexError
  | PDict _ => Raise KeyError
  | PTensor (TDim (t :: _)) => Ok (PTensor t)
  | PTensor _ => Raise IndexError
  | _ => Raise TypeError
  end.

(** [x[k]] for a string key [k] *)
Fixpoint assoc_get (k : string) (d : list (string * pyval)) : option pyval :=
  match d with
  | [] => None
  | (k', v) :: d' => if decide (k' = k) then Some v else assoc_get k d'
  end.

Definition py_getitem_str (v : pyval) (k : string) : result pyval :=
  match v with
  | PDict d => match assoc_get k d with
               | Some x => Ok x
               | None => Raise KeyError
               end
  | _ => Raise TypeError
  end.

(** [t.unsqueeze(0)] *)
Definition unsqueeze0 (t : tensor) : tensor := TDim [t].

(** ** Calls to the collaborators *)

Inductive event :=
| EvProcessor (proc : pyval) (args : list pyval) (kwargs : pydict)
| EvFromPretrained (repo : string)
| EvLoadDataset (name : string) (kwargs : pydict)
| EvGenerate (kwargs : pydict)
| EvGenerateSpeech (args : list pyval) (kwargs : pydict).

(** A computation that may raise and that appends the collaborator calls it
    makes to the log. *)
Definition M (A : Type) : Type := list event → list event * result A.

Definition ret {A} (a : A) : M A := λ log, (log, Ok a).
Definition raise {A} (e : exn) : M A := λ log, (log, Raise e).
Definition bind {A B} (m : M A) (k : A → M B) : M B :=
  λ log, match m log with
         | (log', Ok a) => k a log'
         | (log', Raise e) => (log', Raise e)
         end.
Definition lift {A} (r : result A) : M A := λ log, (log, r).
(** An external call: logged first, then its outcome is the callee's. *)
Definition call {A} (ev : event) (outcome : result A) : M A :=
  λ log, ((log ++ [ev])%list, outcome).

Notation "'let!' x ':=' m 'in' k" := (bind m (λ x, k))
  (at level 10, x name, m at level 100, k at level 200,
   format "'[v' 'let!'  x  ':='  m  'in' '/' k ']'").

(** A call that unpacks two dictionaries as keyword arguments, as in
    [generate( **model_inputs, **kwargs )]: a key given twice is a [TypeError] raised before the
    callee is entered. *)
Definition merge_kwargs (a b : pydict) : result pydict :=
  if decide (a ##ₘ b) then Ok (a ∪ b) else Raise TypeError.

(** The rows of a loaded dataset: [dataset[i]]. *)
Record dataset := Dataset { ds_row : Z → result pyval }.

Record pretrained_config := PretrainedConfig {
  cfg_model_type : string;              (* config.model_type *)
  cfg_to_dict : pydict                  (* config.to_dict() *)
}.

Record model_handle := ModelHandle {
  config : pretrained_config;
  (* model.__dict__.get("generation_config", None), as its to_dict() *)
  generation_config : option pydict;
  device : string
}.

(** What the collaborators answer. *)
Record world := World {
  processor_call : pyval → list pyval → pydict → result pydict;
  from_pretrained : string → result hifigan;
  load_dataset : string → pydict → result dataset;
  torch_tensor : pyval → result tensor;
  generate : model_handle → pydict → result pyval;
  generate_speech : model_handle → list pyval → pydict → result pyval
}.

(** ** The pipeline *)

Definition ONLY_ONE_SPEAKER_EMBEDDINGS_LIST : list string := ["bark"].

Definition SPEAKER_EMBEDDINGS_KEY_MAPPING : gmap string string :=
  {["bark" := "history_prompt"]}.

(** What the base class constructor, called first, leaves in [self]. *)
Record base := Base {
  base_framework : string;
  base_model : model_handle
}.

(** The keyword arguments of [__init__]. *)
Record init_kwargs := InitKwargs {
  arg_vocoder : pyval;
  arg_processor : pyval;
  arg_sampling_rate : pyval;
  arg_sample_rate_name : pyval
}.

Record pipeline := Pipeline {
  framework : string;
  model : model_handle;
  model_type : string;
  is_speecht5 : bool;
  only_one_speaker_embeddings : bool;
  processor : pyval;
  vocoder : pyval;
  sampling_rate : pyval
}.

Section Pipeline.

Variable W : world.

Definition model_generate (m : model_handle) (kwargs : pydict) : M pyval :=
  call (EvGenerate kwargs) (generate W m kwargs).

Definition model_generate_speech (m : model_handle) (args : list pyval)
    (kwargs : pydict) : M pyval :=
  call (EvGenerateSpeech args kwargs) (generate_speech W m args kwargs).

Definition processor_apply (proc : pyval) (args : list pyval)
    (kwargs : pydict) : M pydict :=
  call (EvProcessor proc args kwargs) (processor_call W proc args kwargs).

Definition SpeechT5HifiGan_from_pretrained (repo : string) : M hifigan :=
  call (EvFromPretrained repo) (from_pretrained W repo).

Definition datasets_load_dataset (name : string) (kwargs : pydict) : M dataset :=
  call (EvLoadDataset name kwargs) (load_dataset W name kwargs).

(** *** [__init__] *)

(** The messages of the three [ValueError]s (the line break and indentation
    inside the source's multi-line strings are written as one space). *)
Definition vocoder_is_None_msg : string :=
  "vocoder is None but speecht5 is used. Try passing a repo_id or an instance of SpeechT5HifiGan.".

Definition vocoder_invalid_msg : string :=
  "Must pass a valid vocoder to the TTSPipeline if speecht5 is used. Try passing a repo_id or an instance of SpeechT5HifiGan.".

Definition only_pytorch_msg : string :=
  "The TextToSpeechPipeline is only available in PyTorch.".

(** Lines 60-71: the vocoder the constructor goes on with. *)
Definition resolve_vocoder (speecht5 : bool) (m : model_handle)
    (vocoder : pyval) : M pyval :=
  if speecht5 && is_None vocoder then
    raise (ValueError vocoder_is_None_msg)
  else if speecht5 && is_str vocoder then
    match vocoder with
    | PStr repo =>
        let! h := SpeechT5HifiGan_from_pretrained repo in
        ret (PVocoder (hg_to h (device m)))
    | _ => ret vocoder
    end
  else if speecht5 && negb (is_SpeechT5HifiGan vocoder) then
    raise (ValueError vocoder_invalid_msg)
  else
    ret vocoder.

(** [vocoder.config.sampling_rate] *)
Definition vocoder_config_sampling_rate (vocoder : pyval) : result pyval :=
  match vocoder with
  | PVocoder h => Ok (PInt (hg_sampling_rate h))
  | _ => Raise AttributeError
  end.

(** Lines 82-85: [config = model.config.to_dict()], updated in place with
    the generation config when the model has one. *)
Definition merged_config (m : model_handle) : pydict :=
  let config := cfg_to_dict (config m) in
  match generation_config m with
  | Some gen_config => gen_config ∪ config
  | None => config
  end.

(** Lines 87-90: one pass of the loop body, [acc] being
    [self.sampling_rate]. *)
Definition sampling_rate_step (config : pydict) (acc : pyval)
    (sampling_rate_name : string) : pyval :=
  let sampling_rate := dict_get config sampling_rate_name in
  if is_None sampling_rate then acc else sampling_rate.

Definition sampling_rate_from_config (config : pydict) : pyval :=
  fold_left (sampling_rate_step config) ["sample_rate"; "sampling_rate"] PNone.

(** Lines 76-92. *)
Definition resolve_sampling_rate (speecht5 : bool) (m : model_handle)
    (vocoder sampling_rate : pyval) : result pyval :=
  if speecht5 then
    vocoder_config_sampling_rate vocoder
  else if is_None sampling_rate then
    Ok (sampling_rate_from_config (merged_config m))
  else
    Ok sampling_rate.

Definition __init__ (b : base) (a : init_kwargs) : M pipeline :=
  if decide (base_framework b = "tf") then
    raise (ValueError only_pytorch_msg)
  else
    let model_type := cfg_model_type (config (base_model b)) in
    let is_speecht5 := bool_decide (model_type = "speecht5") in
    let only_one_speaker_embeddings :=
      bool_decide (model_type ∈ ONLY_ONE_SPEAKER_EMBEDDINGS_LIST) in
    let! vocoder := resolve_vocoder is_speecht5 (base_model b) (arg_vocoder a) in
    let! sampling_rate :=
      lift (resolve_sampling_rate is_speecht5 (base_model b) vocoder
              (arg_sampling_rate a)) in
    ret {| framework := base_framework b;
           model := base_model b;
           model_type := model_type;
           is_speecht5 := is_speecht5;
           only_one_speaker_embeddings := only_one_speaker_embeddings;
           processor := arg_processor a;
           vocoder := vocoder;
           sampling_rate := sampling_rate |}.

(** *** [preprocess]

    [preprocess(self, text, speaker_embeddings=None, **kwargs)] is given its
    keyword arguments as one dictionary [params]: Python binds the key
    "speaker_embeddings" to the named parameter and the rest to [kwargs]. *)

Definition default_xvector_index : Z := 7305.

Definition default_speaker_embeddings : M pyval :=
  let! embeddings_dataset :=
    datasets_load_dataset "Matthijs/cmu-arctic-xvectors"
      {["split" := PStr "validation"]} in
  let! record := lift (ds_row embeddings_dataset default_xvector_index) in
  let! xvector := lift (py_getitem_str record "xvector") in
  let! t := lift (torch_tensor W xvector) in
  ret (PTensor (unsqueeze0 t)).

Definition preprocess (self : pipeline) (text : pyval) (params : pydict)
    : M pydict :=
  let speaker_embeddings := dict_get params "speaker_embeddings" in
  let kwargs := delete "speaker_embeddings" params in
  if is_speecht5 self then
    let! inputs :=
      processor_apply (processor self) []
        {["text" := text; "return_tensors" := PStr "pt"]} in
    let! speaker_embeddings :=
      (if is_None speaker_embeddings then default_speaker_embeddings
       else ret speaker_embeddings) in
    let! input_ids := lift (dict_getitem inputs "input_ids") in
    ret {["input_ids" := input_ids; "speaker_embeddings" := speaker_embeddings]}
  else
    (* line 105: the looked-up key is computed and dropped *)
    let _ := default "speaker_embeddings"
               (SPEAKER_EMBEDDINGS_KEY_MAPPING !! model_type self) in
    let processor_args_dict : pydict :=
      if decide (cfg_model_type (config (model self)) = "bark") then
        (* bark speaker embeddings is passed as voice_preset in its processor *)
        {["voice_preset" := speaker_embeddings]}
      else
        {["speaker_embeddings" := speaker_embeddings]} in
    let! all_kwargs := lift (merge_kwargs processor_args_dict kwargs) in
    processor_apply (processor self) [text] all_kwargs.

(** *** [_forward] *)

(** Lines 125-130: the (in place) narrowing of the speaker embeddings. *)
Definition narrow_speaker_embeddings (self : pipeline) (model_inputs : pydict)
    : result pydict :=
  if only_one_speaker_embeddings self then
    let speaker_embeddings_key :=
      default "speaker_embeddings"
        (SPEAKER_EMBEDDINGS_KEY_MAPPING !! model_type self) in
    match dict_getitem model_inputs "input_ids" with
    | Raise e => Raise e
    | Ok input_ids =>
        match py_len input_ids with
        | Raise e => Raise e
        | Ok n =>
            if bool_decide (1 < n)
               && negb (is_None (dict_get model_inputs speaker_embeddings_key))
            then
              match dict_getitem model_inputs speaker_embeddings_key with
              | Raise e => Raise e
              | Ok v =>
                  match py_getitem0 v with
                  | Raise e => Raise e
                  | Ok first => Ok (<[speaker_embeddings_key := first]> model_inputs)
                  end
              end
            else Ok model_inputs
        end
    end
  else Ok model_inputs.

Definition _forward (self : pipeline) (model_inputs kwargs : pydict) : M pyval :=
  if is_speecht5 self then
    let! inputs := lift (dict_getitem model_inputs "input_ids") in
    let! speaker_embeddings :=
      lift (dict_getitem model_inputs "speaker_embeddings") in
    model_generate_speech (model self) [inputs; speaker_embeddings]
      {["vocoder" := vocoder self]}
  else
    let! model_inputs := lift (narrow_speaker_embeddings self model_inputs) in
    let! all_kwargs := lift (merge_kwargs model_inputs kwargs) in
    model_generate (model self) all_kwargs.

(** *** [_sanitize_parameters] and [postprocess] *)

Definition _sanitize_parameters (generate_kwargs : pydict)
    : pydict * pydict * pydict :=
  let preprocess_params : pydict :=
    {["speaker_embeddings" := dict_get generate_kwargs "speaker_embeddings"]} in
  let forward_params : pydict :=
    filter (λ kv, preprocess_params !! kv.1 = None) generate_kwargs in
  let postprocess_params : pydict := ∅ in
  (preprocess_params, forward_params, postprocess_params).

Definition postprocess (speech : pyval) : pyval := speech.

End Pipeline.

(** ** Invariant of constructed pipelines *)

(** The family flags of a pipeline agree with its model, as [__init__]
    sets them. *)
Definition constructed (self : pipeline) : Prop :=
  model_type self = cfg_model_type (config (model self))
  ∧ is_speecht5 self = bool_decide (model_type self = "speecht5")
  ∧ only_one_speaker_embeddings self
    = bool_decide (model_type self ∈ ONLY_ONE_SPEAKER_EMBEDDINGS_LIST).

(** The key under which [preprocess] hands the speaker embeddings to the
    processor (lines 106-110). *)
Definition processor_embeddings_key (self : pipeline) : string :=
  if decide (cfg_model_type (config (model self)) = "bark")
  then "voice_preset" else "speaker_embeddings".

(** The key under which [_forward] looks for the speaker embeddings of a
    single-embedding family (line 126). *)
Definition forward_embeddings_key (self : pipeline) : string :=
  default "speaker_embeddings" (SPEAKER_EMBEDDINGS_KEY_MAPPING !! model_type self).

(** ** Concrete collaborators and pipelines, for the examples *)

Definition stub_dataset : dataset :=
  Dataset (λ i, Ok (PDict [("filename", PStr "row");
                           ("xvector", PList [PFloat i; PFloat (i + 1)])])).

Definition stub_torch_tensor (v : pyval) : result tensor :=
  match v with
  | PList [PFloat a; PFloat b] => Ok (TDim [TScalar a; TScalar b])
  | _ => Raise TypeError
  end.

Definition stub_world : world := {|
  processor_call := λ _ args kwargs, Ok (<["input_ids" := PList args]> kwargs);
  from_pretrained := λ repo, Ok (HifiGan 16000 "cpu");
  load_dataset := λ _ _, Ok stub_dataset;
  torch_tensor := stub_torch_tensor;
  generate := λ _ _, Ok (PTensor (TDim []));
  generate_speech := λ _ _ _, Ok (PTensor (TDim []))
|}.

Definition model_of (family : string) (static : pydict)
    (gen : option pydict) : model_handle :=
  ModelHandle (PretrainedConfig family static) gen "cuda:0".

Definition no_kwargs : init_kwargs := InitKwargs PNone PNone PNone PNone.

Definition bark_processor : pyval := PObject "BarkProcessor" 0.
Definition speecht5_processor : pyval := PObject "SpeechT5Processor" 1.

Definition bark_self : pipeline := {|
  framework := "pt";
  model := model_of "bark" {["sample_rate" := PInt 24000]} None;
  model_type := "bark";
  is_speecht5 := false;
  only_one_speaker_embeddings := true;
  processor := bark_processor;
  vocoder := PNone;
  sampling_rate := PInt 24000
|}.

Definition speecht5_self : pipeline := {|
  framework := "pt";
  model := model_of "speecht5" ∅ None;
  model_type := "speecht5";
  is_speecht5 := true;
  only_one_speaker_embeddings := false;
  processor := speecht5_processor;
  vocoder := PVocoder (HifiGan 16000 "cuda:0");
  sampling_rate := PInt 16000
|}.

Definition two_rates_base : base :=
  Base "pt" (model_of "musicgen"
               {["sample_rate" := PInt 44100; "sampling_rate" := PInt 16000]}
               None).

Definition static_16000_base : base :=
  Base "pt" (model_of "vits" {["sampling_rate" := PInt 16000]} None).

Definition override_24000_base : base :=
  Base "pt" (model_of "vits" {["sampling_rate" := PInt 16000]}
               (Some {["sampling_rate" := PInt 24000; "do_sample" := PBool true]})).

Definition speecht5_tf_base : base := Base "tf" (model_of "speecht5" ∅ None).
Definition speecht5_pt_base : base := Base "pt" (model_of "speecht5" ∅ None).

Definition hifigan_repo : string := "microsoft/speecht5_hifigan".

(** The pipeline a speecht5 construction ends with, once its vocoder [h]
    is known. *)
Definition speecht5_pipeline (b : base) (a : init_kwargs) (h : hifigan)
    : pipeline := {|
  framework := base_framework b;
  model := base_model b;
  model_type := "speecht5";
  is_speecht5 := true;
  only_one_speaker_embeddings := false;
  processor := arg_processor a;
  vocoder := PVocoder h;
  sampling_rate := PInt (hg_sampling_rate h)
|}.

Definition hello : pyval := PStr "Hello".

(** A batch of three tokenized texts with three speaker embeddings, and a
    batch of one. *)
Definition batch3_inputs : pydict :=
  {["input_ids" := PList [PList [PInt 1]; PList [PInt 2]; PList [PInt 3]];
    "history_prompt" := PList [PStr "a"; PStr "b"; PStr "c"]]}.

Definition batch1_inputs : pydict :=
  {["input_ids" := PList [PList [PInt 1]];
    "history_prompt" := PList [PStr "a"; PStr "b"; PStr "c"]]}.

Definition sampling_kwargs : pydict := {["do_sample" := PBool true]}.

(** [threshold=0.3], a keyword argument of [generate_speech]. *)
Definition threshold_kwargs : pydict :=
  {["threshold" := PFloat 4599075939470750515]}.

Definition speecht5_inputs : pydict :=
  {["input_ids" := PTensor (TDim [TDim [TScalar 4; TScalar 5]]);
    "speaker_embeddings" := PTensor (TDim [TDim [TScalar 0; TScalar 1]])]}.

(** A family that is neither speecht5 nor in the single-embedding list. *)
Definition vits_self : pipeline := {|
  framework := "pt";
  model := model_of "vits" {["sampling_rate" := PInt 16000]} None;
  model_type := "vits";
  is_speecht5 := false;
  only_one_speaker_embeddings := false;
  processor := PObject "VitsTokenizer" 2;
  vocoder := PNone;
  sampling_rate := PInt 16000
|}.

(** Collaborators that fail: no network for the dataset, a processor that
    raises, a processor whose output has no "input_ids". *)
Definition offline_world : world := {|
  processor_call := processor_call stub_world;
  from_pretrained := λ _, Raise (ExternalError "offline");
  load_dataset := λ _ _, Raise (ExternalError "offline");
  torch_tensor := stub_torch_tensor;
  generate := generate stub_world;
  generate_speech := generate_speech stub_world
|}.

Definition broken_processor_world : world := {|
  processor_call := λ _ _ _, Raise (ExternalError "processor");
  from_pretrained := from_pretrained stub_world;
  load_dataset := load_dataset stub_world;
  torch_tensor := stub_torch_tensor;
  generate := generate stub_world;
  generate_speech := generate_speech stub_world
|}.

Definition no_ids_world : world := {|
  processor_call := λ _ _ kwargs, Ok kwargs;
  from_pretrained := from_pretrained stub_world;
  load_dataset := load_dataset stub_world;
  torch_tensor := stub_torch_tensor;
  generate := generate stub_world;
  generate_speech := generate_speech stub_world
|}.

Definition explicit_rate_kwargs : init_kwargs :=
  InitKwargs (PStr hifigan_repo) bark_processor (PInt 48000) PNone.

Definition sample_rate_only_base : base :=
  Base "pt" (model_of "musicgen" {["sample_rate" := PInt 32000]} None).

Definition masked_rate_base : base :=
  Base "pt" (model_of "vits" {["sampling_rate" := PInt 16000]}
               (Some {["sampling_rate" := PNone]})).

Definition bark_base : base :=
  Base "pt" (model_of "bark" {["sample_rate" := PInt 24000]} None).

Definition xvector : pyval := PTensor (TDim [TDim [TScalar 0; TScalar 1]]).

Definition call_kwargs : pydict :=
  {["speaker_embeddings" := PStr "v2/en_speaker_1"; "do_sample" := PBool true]}.

(** ** The monad and the dictionaries *)

Lemma bind_Ok {A B} (m : M A) (k : A → M B) log log' a :
  m log = (log', Ok a) → bind m k log = k a log'.
Proof. intros H. unfold bind. by rewrite H. Qed.

Lemma bind_inv_Ok {A B} (m : M A) (k : A → M B) log log2 b :
  bind m k log = (log2, Ok b) →
  ∃ log1 a, m log = (log1, Ok a) ∧ k a log1 = (log2, Ok b).
Proof.
  unfold bind. destruct (m log) as [log1 [a|e]]; intros H.
  - by exists log1, a.
  - discriminate.
Qed.

Lemma lift_inv_Ok {A} (r : result A) log log' a :
  lift r log = (log', Ok a) → log' = log ∧ r = Ok a.
Proof. unfold lift. intros [= -> ->]. done. Qed.

Lemma is_None_false v : is_None v = false ↔ v ≠ PNone.
Proof. by destruct v. Qed.

Lemma merge_kwargs_disjoint (a b : pydict) :
  a ##ₘ b → merge_kwargs a b = Ok (a ∪ b).
Proof. intros H. unfold merge_kwargs. by rewrite decide_True. Qed.

(** ** Construction *)

Lemma init_tf W b a log :
  base_framework b = "tf" →
  __init__ W b a log = (log, Raise (ValueError only_pytorch_msg)).
Proof. intros H. unfold __init__. by rewrite decide_True. Qed.

Lemma init_constructed W b a log log' self :
  __init__ W b a log = (log', Ok self) →
  base_framework b ≠ "tf" ∧ constructed self ∧ model self = base_model b.
Proof.
  unfold __init__. case_decide as Htf; [discriminate |].
  intros H. apply bind_inv_Ok in H as (l1 & voc & _ & H).
  apply bind_inv_Ok in H as (l2 & sr & _ & H).
  injection H as _ <-. done.
Qed.

(** Without speecht5 the constructor calls no collaborator and only fails
    on the framework check. *)
Lemma init_generic W b a log :
  base_framework b ≠ "tf" →
  cfg_model_type (config (base_model b)) ≠ "speecht5" →
  ∃ self,
    __init__ W b a log = (log, Ok self)
    ∧ vocoder self = arg_vocoder a
    ∧ processor self = arg_processor a
    ∧ sampling_rate self
      = (if is_None (arg_sampling_rate a)
         then sampling_rate_from_config (merged_config (base_model b))
         else arg_sampling_rate a).
Proof.
  intros Htf Hfam. unfold __init__. rewrite decide_False by done.
  rewrite bool_decide_eq_false_2 by done.
  unfold resolve_vocoder, resolve_sampling_rate, bind, lift, ret. simpl.
  destruct (is_None (arg_sampling_rate a)); eexists; (split; [reflexivity | done]).
Qed.

Lemma sampling_rate_from_config_last (config0 : pydict) v :
  config0 !! "sampling_rate" = Some v → v ≠ PNone →
  sampling_rate_from_config config0 = v.
Proof.
  intros Hv Hne. unfold sampling_rate_from_config, sampling_rate_step, dict_get.
  simpl. rewrite Hv. simpl.
  apply is_None_false in Hne. by rewrite Hne.
Qed.

(** C9: the [sample_rate_name] argument is accepted and never looked at:
    two constructions that differ only in it have the same outcome, the
    same resulting pipeline state (sampling rate, vocoder, processor,
    family flags), the same error and the same collaborator calls. *)
Theorem sample_rate_name_unused W b voc proc rate name1 name2 log :
  __init__ W b (InitKwargs voc proc rate name1) log
  = __init__ W b (InitKwargs voc proc rate name2) log.
Proof. reflexivity. Qed.

(** C2 fails as stated: with "sample_rate" = 44100 and "sampling_rate" =
    16000 in the merged configuration and no explicit rate, the resolved
    rate is 16000, the value of the key checked last, not the 44100 found
    under "sample_rate". *)
Lemma sampling_rate_first_key_loses :
  cfg_model_type (config (base_model two_rates_base)) ≠ "speecht5"
  ∧ arg_sampling_rate no_kwargs = PNone
  ∧ merged_config (base_model two_rates_base) !! "sample_rate" = Some (PInt 44100)
  ∧ merged_config (base_model two_rates_base) !! "sampling_rate" = Some (PInt 16000)
  ∧ ∃ self,
      __init__ stub_world two_rates_base no_kwargs [] = ([], Ok self)
      ∧ sampling_rate self = PInt 16000
      ∧ sampling_rate self ≠ PInt 44100.
Proof.
  repeat split; try done.
  eexists. split; [vm_compute; reflexivity |]. by simpl.
Qed.

(** C2, amended: for a model other than speecht5 constructed without an
    explicit sampling rate, when the merged configuration has non-None
    values under both "sample_rate" and "sampling_rate", the resolved
    sampling rate is the value under "sampling_rate": the loop over the two
    keys does not stop at the first match, so the key checked last wins. *)
Theorem sampling_rate_last_key_wins W b a log v1 v2 :
  cfg_model_type (config (base_model b)) ≠ "speecht5" →
  arg_sampling_rate a = PNone →
  merged_config (base_model b) !! "sample_rate" = Some v1 → v1 ≠ PNone →
  merged_config (base_model b) !! "sampling_rate" = Some v2 → v2 ≠ PNone →
  (base_framework b ≠ "tf" →
     ∃ self, __init__ W b a log = (log, Ok self) ∧ sampling_rate self = v2)
  ∧ (∀ log' self, __init__ W b a log = (log', Ok self) → sampling_rate self = v2).
Proof.
  intros Hfam Hrate _ _ H2 Hne2.
  assert (Hgo : base_framework b ≠ "tf" →
     ∃ self, __init__ W b a log = (log, Ok self) ∧ sampling_rate self = v2).
  { intros Htf. destruct (init_generic W b a log Htf Hfam) as (self & Hrun & _ & _ & Hsr).
    exists self. split; [done |]. rewrite Hsr, Hrate. simpl.
    by apply sampling_rate_from_config_last. }
  split; [done |].
  intros log' self Hrun.
  destruct (init_constructed _ _ _ _ _ _ Hrun) as (Htf & _).
  destruct (Hgo Htf) as (self' & Hrun' & Hsr). congruence.
Qed.

Lemma sampling_rate_last_key_wins_witness :
  ∃ self, __init__ stub_world two_rates_base no_kwargs [] = ([], Ok self)
          ∧ sampling_rate self = PInt 16000.
Proof.
  destruct (sampling_rate_last_key_wins stub_world two_rates_base no_kwargs []
              (PInt 44100) (PInt 16000)) as [H _]; try done.
  by apply H.
Defined.

(** C4: for a model other than speecht5 constructed without an explicit
    sampling rate and whose static configuration has "sampling_rate" = s
    (16000 in the spec), the resolved rate is g (24000 in the spec) when the
    generation configuration has "sampling_rate" = g, and it is s when there
    is no generation configuration or it has no "sampling_rate" entry. *)
Theorem generation_config_overrides_static W b a log (s g : Z) :
  cfg_model_type (config (base_model b)) ≠ "speecht5" →
  arg_sampling_rate a = PNone →
  cfg_to_dict (config (base_model b)) !! "sampling_rate" = Some (PInt s) →
  (base_framework b ≠ "tf" → ∃ self, __init__ W b a log = (log, Ok self))
  ∧ (∀ log' self, __init__ W b a log = (log', Ok self) →
       (∀ gen, generation_config (base_model b) = Some gen →
               gen !! "sampling_rate" = Some (PInt g) →
               sampling_rate self = PInt g)
       ∧ (generation_config (base_model b) = None
          ∨ (∃ gen, generation_config (base_model b) = Some gen
                    ∧ gen !! "sampling_rate" = None) →
          sampling_rate self = PInt s)).
Proof.
  intros Hfam Hrate Hstatic. split.
  - intros Htf. destruct (init_generic W b a log Htf Hfam) as (self & Hrun & _).
    by exists self.
  - intros log' self Hrun.
    destruct (init_constructed _ _ _ _ _ _ Hrun) as (Htf & _).
    destruct (init_generic W b a log Htf Hfam) as (self' & Hrun' & _ & _ & Hsr).
    assert (self' = self) as -> by congruence.
    rewrite Hrate in Hsr. simpl in Hsr. rewrite Hsr. split.
    + intros gen Hgen Hg. apply sampling_rate_from_config_last; [| done].
      unfold merged_config. rewrite Hgen. by apply lookup_union_Some_l.
    + intros Hno. apply sampling_rate_from_config_last; [| done].
      unfold merged_config. destruct Hno as [-> | (gen & -> & Hg)]; [done |].
      by rewrite lookup_union_r.
Qed.

Lemma generation_config_overrides_static_witness :
  (∃ self, __init__ stub_world override_24000_base no_kwargs [] = ([], Ok self)
           ∧ sampling_rate self = PInt 24000)
  ∧ (∃ self, __init__ stub_world static_16000_base no_kwargs [] = ([], Ok self)
             ∧ sampling_rate self = PInt 16000).
Proof.
  split.
  - destruct (generation_config_overrides_static stub_world override_24000_base
                no_kwargs [] 16000 24000) as [Hex Hrate]; try done.
    destruct Hex as [self Hrun]; [done |]. exists self. split; [done |].
    destruct (Hrate _ _ Hrun) as [Hgen _]. by eapply Hgen.
  - destruct (generation_config_overrides_static stub_world static_16000_base
                no_kwargs [] 16000 24000) as [Hex Hrate]; try done.
    destruct Hex as [self Hrun]; [done |]. exists self. split; [done |].
    destruct (Hrate _ _ Hrun) as [_ Hnone]. apply Hnone. by left.
Defined.

Lemma init_speecht5_None W b a log :
  cfg_model_type (config (base_model b)) = "speecht5" →
  arg_vocoder a = PNone →
  ∃ msg, __init__ W b a log = (log, Raise (ValueError msg)).
Proof.
  intros Hfam Hvoc. unfold __init__. case_decide; [by eexists |].
  rewrite Hfam, Hvoc. by eexists.
Qed.

Lemma init_speecht5_invalid W b a log :
  cfg_model_type (config (base_model b)) = "speecht5" →
  is_str (arg_vocoder a) = false →
  is_SpeechT5HifiGan (arg_vocoder a) = false →
  ∃ msg, __init__ W b a log = (log, Raise (ValueError msg)).
Proof.
  intros Hfam Hstr Hinst. unfold __init__. case_decide; [by eexists |].
  rewrite Hfam. unfold resolve_vocoder, bind, raise. simpl.
  rewrite Hstr, Hinst. destruct (is_None (arg_vocoder a)); by eexists.
Qed.

Lemma init_speecht5_str W b a log repo :
  cfg_model_type (config (base_model b)) = "speecht5" →
  base_framework b ≠ "tf" →
  arg_vocoder a = PStr repo →
  __init__ W b a log
  = ((log ++ [EvFromPretrained repo])%list,
     match from_pretrained W repo with
     | Ok h => Ok (speecht5_pipeline b a (hg_to h (device (base_model b))))
     | Raise e => Raise e
     end).
Proof.
  intros Hfam Htf Hvoc. unfold __init__. rewrite decide_False by done.
  rewrite Hfam, Hvoc.
  unfold resolve_vocoder, SpeechT5HifiGan_from_pretrained, bind, call, lift, ret.
  simpl. by destruct (from_pretrained W repo).
Qed.

Lemma init_speecht5_instance W b a log h :
  cfg_model_type (config (base_model b)) = "speecht5" →
  base_framework b ≠ "tf" →
  arg_vocoder a = PVocoder h →
  __init__ W b a log = (log, Ok (speecht5_pipeline b a h)).
Proof.
  intros Hfam Htf Hvoc. unfold __init__. rewrite decide_False by done.
  by rewrite Hfam, Hvoc.
Qed.

(** C3 fails as stated: under the framework "tf" a speecht5 construction
    given a string vocoder raises the PyTorch-only error before the vocoder
    is looked at; nothing is loaded, although the load would succeed. *)
Lemma string_vocoder_not_loaded_under_tf :
  cfg_model_type (config (base_model speecht5_tf_base)) = "speecht5"
  ∧ from_pretrained stub_world hifigan_repo = Ok (HifiGan 16000 "cpu")
  ∧ __init__ stub_world speecht5_tf_base
      (InitKwargs (PStr hifigan_repo) speecht5_processor PNone PNone) []
    = ([], Raise (ValueError only_pytorch_msg)).
Proof. repeat split. Qed.

(** C3, amended: a speecht5 construction raises a configuration error
    ([ValueError]) when the vocoder argument is None, and when it is neither
    a string nor a [SpeechT5HifiGan] instance; when it is a string and the
    framework is not "tf", the vocoder is loaded by reference and moved to
    the model's device, and the construction fails only if that load fails.
    (Under "tf" every construction raises the PyTorch-only configuration
    error first.) *)
Theorem speecht5_vocoder_check W b a log :
  cfg_model_type (config (base_model b)) = "speecht5" →
  (arg_vocoder a = PNone →
     ∃ msg, __init__ W b a log = (log, Raise (ValueError msg)))
  ∧ (is_str (arg_vocoder a) = false →
     is_SpeechT5HifiGan (arg_vocoder a) = false →
     ∃ msg, __init__ W b a log = (log, Raise (ValueError msg)))
  ∧ (∀ repo, arg_vocoder a = PStr repo → base_framework b ≠ "tf" →
     __init__ W b a log
     = ((log ++ [EvFromPretrained repo])%list,
        match from_pretrained W repo with
        | Ok h => Ok (speecht5_pipeline b a (hg_to h (device (base_model b))))
        | Raise e => Raise e
        end)).
Proof.
  intros Hfam. split; [| split].
  - by apply init_speecht5_None.
  - by apply init_speecht5_invalid.
  - intros repo Hvoc Htf. by apply init_speecht5_str.
Qed.

Lemma speecht5_vocoder_check_witness :
  (∃ msg, __init__ stub_world speecht5_pt_base no_kwargs []
          = ([], Raise (ValueError msg)))
  ∧ (∃ msg, __init__ stub_world speecht5_pt_base
              (InitKwargs (PInt 3) PNone PNone PNone) []
            = ([], Raise (ValueError msg)))
  ∧ __init__ stub_world speecht5_pt_base
      (InitKwargs (PStr hifigan_repo) speecht5_processor PNone PNone) []
    = ([EvFromPretrained hifigan_repo],
       Ok (speecht5_pipeline speecht5_pt_base
             (InitKwargs (PStr hifigan_repo) speecht5_processor PNone PNone)
             (HifiGan 16000 "cuda:0"))).
Proof.
  split; [| split].
  - by apply (speecht5_vocoder_check stub_world speecht5_pt_base no_kwargs []).
  - by apply (speecht5_vocoder_check stub_world speecht5_pt_base
                (InitKwargs (PInt 3) PNone PNone PNone) []).
  - by apply (speecht5_vocoder_check stub_world speecht5_pt_base
                (InitKwargs (PStr hifigan_repo) speecht5_processor PNone PNone) []).
Defined.

(** C8: every speecht5 construction that succeeds holds a valid vocoder and
    its sampling rate is that vocoder's configured rate, whatever the
    explicit [sampling_rate] argument and the model's static and generation
    configuration are; and the construction does succeed (framework other
    than "tf") when given a vocoder instance, or a reference that loads. *)
Theorem speecht5_rate_is_vocoder_rate W b a log :
  cfg_model_type (config (base_model b)) = "speecht5" →
  (∀ log' self, __init__ W b a log = (log', Ok self) →
     ∃ h, vocoder self = PVocoder h
          ∧ sampling_rate self = PInt (hg_sampling_rate h))
  ∧ (base_framework b ≠ "tf" →
     (∀ h, arg_vocoder a = PVocoder h →
        ∃ self, __init__ W b a log = (log, Ok self)
                ∧ vocoder self = PVocoder h
                ∧ sampling_rate self = PInt (hg_sampling_rate h))
     ∧ (∀ repo h, arg_vocoder a = PStr repo → from_pretrained W repo = Ok h →
        ∃ self, __init__ W b a log = ((log ++ [EvFromPretrained repo])%list, Ok self)
                ∧ vocoder self = PVocoder (hg_to h (device (base_model b)))
                ∧ sampling_rate self = PInt (hg_sampling_rate h))).
Proof.
  intros Hfam. split.
  - intros log' self Hrun.
    destruct (init_constructed _ _ _ _ _ _ Hrun) as (Htf & _).
    destruct (arg_vocoder a) as [| | | |repo| | | |h|] eqn:Hvoc;
      try (destruct (init_speecht5_invalid W b a log Hfam) as [msg Hbad];
           [by rewrite Hvoc | by rewrite Hvoc | congruence]).
    + rewrite (init_speecht5_str W b a log repo Hfam Htf Hvoc) in Hrun.
      destruct (from_pretrained W repo) as [h|e]; [| discriminate].
      injection Hrun as _ <-. by eexists.
    + rewrite (init_speecht5_instance W b a log h Hfam Htf Hvoc) in Hrun.
      injection Hrun as _ <-. by eexists.
  - intros Htf. split.
    + intros h Hvoc. eexists. split; [by apply init_speecht5_instance | done].
    + intros repo h Hvoc Hload. eexists.
      split; [by rewrite (init_speecht5_str W b a log repo Hfam Htf Hvoc), Hload |].
      done.
Qed.

Lemma speecht5_rate_is_vocoder_rate_witness :
  ∃ self,
    __init__ stub_world speecht5_pt_base
      (InitKwargs (PVocoder (HifiGan 22050 "cpu")) speecht5_processor
         (PInt 48000) PNone) []
    = ([], Ok self)
    ∧ vocoder self = PVocoder (HifiGan 22050 "cpu")
    ∧ sampling_rate self = PInt 22050.
Proof.
  destruct (speecht5_rate_is_vocoder_rate stub_world speecht5_pt_base
              (InitKwargs (PVocoder (HifiGan 22050 "cpu")) speecht5_processor
                 (PInt 48000) PNone) []) as [_ H]; [done |].
  destruct H as [H _]; [done |]. by apply (H (HifiGan 22050 "cpu")).
Defined.

(** ** Input preparation *)

Lemma processor_embeddings_key_cases self :
  constructed self →
  processor_embeddings_key self
  = if decide (model_type self = "bark") then "voice_preset"
    else "speaker_embeddings".
Proof. intros (Hty & _). unfold processor_embeddings_key. by rewrite Hty. Qed.

Lemma preprocess_generic W self text params log :
  is_speecht5 self = false →
  delete "speaker_embeddings" params !! processor_embeddings_key self = None →
  preprocess W self text params log
  = ((log ++ [EvProcessor (processor self) [text]
                (<[processor_embeddings_key self := dict_get params "speaker_embeddings"]>
                   (delete "speaker_embeddings" params))])%list,
     processor_call W (processor self) [text]
       (<[processor_embeddings_key self := dict_get params "speaker_embeddings"]>
          (delete "speaker_embeddings" params))).
Proof.
  intros Hfam Hfree. unfold preprocess, processor_embeddings_key in *.
  rewrite Hfam. simpl.
  case_decide; (erewrite bind_Ok;
    [ reflexivity
    | unfold lift; rewrite merge_kwargs_disjoint;
      [ by rewrite <- insert_union_singleton_l
      | by apply map_disjoint_singleton_l ] ]).
Qed.

(** C5 fails as stated: for "bark" the lookup table names "history_prompt",
    but input preparation hands the conditioning value to the processor
    under "voice_preset"; the processor receives no "history_prompt". *)
Lemma bark_processor_key_is_not_the_table_key :
  model_type bark_self ≠ "speecht5"
  ∧ SPEAKER_EMBEDDINGS_KEY_MAPPING !! model_type bark_self = Some "history_prompt"
  ∧ (preprocess stub_world bark_self hello
       {["speaker_embeddings" := PStr "v2/en_speaker_1"]} []).1
    = [EvProcessor bark_processor [hello]
         {["voice_preset" := PStr "v2/en_speaker_1"]}]
  ∧ ({["voice_preset" := PStr "v2/en_speaker_1"]} : pydict) !! "history_prompt"
    = None.
Proof.
  split; [discriminate |]. split; [reflexivity |].
  split; vm_compute; reflexivity.
Qed.

(** C5, amended: for a family other than speecht5, input preparation calls
    the processor once, with the text and the conditioning value under a key
    fixed in the code, "voice_preset" for "bark" and "speaker_embeddings"
    for every other family (the lookup table is not used here), next to the
    caller's other keyword parameters, as long as these do not repeat that
    key. *)
Theorem preprocess_processor_key W self text params log :
  constructed self →
  model_type self ≠ "speecht5" →
  (model_type self = "bark" → params !! "voice_preset" = None) →
  ∃ key kwargs,
    key = (if decide (model_type self = "bark") then "voice_preset"
           else "speaker_embeddings")
    ∧ preprocess W self text params log
      = ((log ++ [EvProcessor (processor self) [text] kwargs])%list,
         processor_call W (processor self) [text] kwargs)
    ∧ kwargs !! key = Some (dict_get params "speaker_embeddings")
    ∧ ∀ k, k ≠ key → k ≠ "speaker_embeddings" → kwargs !! k = params !! k.
Proof.
  intros Hc Hfam Hfree. pose proof (processor_embeddings_key_cases self Hc) as Hkey.
  destruct Hc as (_ & Hs & _). rewrite bool_decide_eq_false_2 in Hs by done.
  eexists (processor_embeddings_key self), _. split; [done |].
  split; [apply preprocess_generic; [done |] |].
  - rewrite Hkey. case_decide.
    + rewrite lookup_delete_ne by done. by apply Hfree.
    + by rewrite lookup_delete_eq.
  - split; [by rewrite lookup_insert_eq |].
    intros k Hk1 Hk2. rewrite lookup_insert_ne by congruence.
    by rewrite lookup_delete_ne.
Qed.

Lemma preprocess_processor_key_witness :
  ∃ key kwargs,
    key = "voice_preset"
    ∧ preprocess stub_world bark_self hello
        {["speaker_embeddings" := PStr "v2/en_speaker_1"]} []
      = ([EvProcessor bark_processor [hello] kwargs],
         processor_call stub_world bark_processor [hello] kwargs)
    ∧ kwargs !! key = Some (PStr "v2/en_speaker_1").
Proof.
  destruct (preprocess_processor_key stub_world bark_self hello
              {["speaker_embeddings" := PStr "v2/en_speaker_1"]} [])
    as (key & kwargs & Hkey & Hrun & Hval & _).
  - by vm_compute.
  - discriminate.
  - intros _. by vm_compute.
  - exists key, kwargs. split; [exact Hkey |]. split; [exact Hrun | exact Hval].
Defined.

(** C10: for a family other than speecht5, when the caller supplies no
    conditioning value, the routed preparation parameters bind
    "speaker_embeddings" to None and input preparation calls the processor
    once with the conditioning key of the family ("voice_preset" for "bark",
    "speaker_embeddings" otherwise) present and bound to None; no dataset is
    loaded, the default vector belongs to the speecht5 branch only. *)
Theorem preprocess_passes_explicit_None W self text generate_kwargs log :
  constructed self →
  model_type self ≠ "speecht5" →
  dict_get generate_kwargs "speaker_embeddings" = PNone →
  (_sanitize_parameters generate_kwargs).1.1 = {["speaker_embeddings" := PNone]}
  ∧ ∃ key kwargs,
      key = (if decide (model_type self = "bark") then "voice_preset"
             else "speaker_embeddings")
      ∧ kwargs = {[key := PNone]}
      ∧ preprocess W self text (_sanitize_parameters generate_kwargs).1.1 log
        = ((log ++ [EvProcessor (processor self) [text] kwargs])%list,
           processor_call W (processor self) [text] kwargs)
      ∧ kwargs !! key = Some PNone.
Proof.
  intros Hc Hfam Hnone. pose proof (processor_embeddings_key_cases self Hc) as Hkey.
  destruct Hc as (_ & Hs & _). rewrite bool_decide_eq_false_2 in Hs by done.
  unfold _sanitize_parameters. simpl. rewrite Hnone. split; [done |].
  eexists (processor_embeddings_key self), _. split; [done |].
  split; [reflexivity |]. split; [| by rewrite lookup_singleton_eq].
  rewrite preprocess_generic; [| done |].
  - unfold dict_get. rewrite lookup_singleton_eq. simpl.
    by rewrite delete_singleton_eq, insert_empty.
  - rewrite delete_singleton_eq. apply lookup_empty.
Qed.

Lemma preprocess_passes_explicit_None_witness :
  preprocess stub_world bark_self hello
    (_sanitize_parameters sampling_kwargs).1.1 []
  = ([EvProcessor bark_processor [hello] {["voice_preset" := PNone]}],
     processor_call stub_world bark_processor [hello] {["voice_preset" := PNone]}).
Proof.
  destruct (preprocess_passes_explicit_None stub_world bark_self hello
              sampling_kwargs []) as (_ & key & kwargs & -> & -> & Hrun & _).
  - by vm_compute.
  - discriminate.
  - by vm_compute.
  - exact Hrun.
Defined.

Lemma default_speaker_embeddings_run W log ds rec xv t :
  load_dataset W "Matthijs/cmu-arctic-xvectors" {["split" := PStr "validation"]}
  = Ok ds →
  ds_row ds 7305 = Ok rec →
  py_getitem_str rec "xvector" = Ok xv →
  torch_tensor W xv = Ok t →
  default_speaker_embeddings W log
  = ((log ++ [EvLoadDataset "Matthijs/cmu-arctic-xvectors"
                {["split" := PStr "validation"]}])%list,
     Ok (PTensor (TDim [t]))).
Proof.
  intros Hds Hrow Hxv Ht.
  unfold default_speaker_embeddings, datasets_load_dataset, bind, call, lift, ret.
  unfold default_xvector_index. by rewrite Hds, Hrow, Hxv, Ht.
Qed.

Lemma default_speaker_embeddings_inv W log log' v :
  default_speaker_embeddings W log = (log', Ok v) →
  ∃ ds rec xv t,
    load_dataset W "Matthijs/cmu-arctic-xvectors" {["split" := PStr "validation"]}
    = Ok ds
    ∧ ds_row ds 7305 = Ok rec
    ∧ py_getitem_str rec "xvector" = Ok xv
    ∧ torch_tensor W xv = Ok t
    ∧ v = PTensor (TDim [t]).
Proof.
  unfold default_speaker_embeddings. intros H.
  apply bind_inv_Ok in H as (l1 & ds & Hds & H).
  apply bind_inv_Ok in H as (l2 & rec & Hrow & H).
  apply bind_inv_Ok in H as (l3 & xv & Hxv & H).
  apply bind_inv_Ok in H as (l4 & t & Ht & H).
  injection H as _ <-.
  apply lift_inv_Ok in Hrow as [_ Hrow]. apply lift_inv_Ok in Hxv as [_ Hxv].
  apply lift_inv_Ok in Ht as [_ Ht].
  unfold datasets_load_dataset, call in Hds. injection Hds as _ Hds.
  by exists ds, rec, xv, t.
Qed.

(** C6: for speecht5, when input preparation is invoked without a
    conditioning value, the "speaker_embeddings" entry of the prepared
    inputs is the tensor made of the "xvector" field of record 7305 of the
    "Matthijs/cmu-arctic-xvectors" validation split, with a batch dimension
    added in front: the same record on every call.  Preparation returns
    these inputs whenever the processor and the dataset answer, and it never
    returns inputs holding another vector. *)
Theorem speecht5_default_embeddings W self text params log :
  is_speecht5 self = true →
  dict_get params "speaker_embeddings" = PNone →
  (∀ inputs ids ds rec xv t,
     processor_call W (processor self) []
       {["text" := text; "return_tensors" := PStr "pt"]} = Ok inputs →
     inputs !! "input_ids" = Some ids →
     load_dataset W "Matthijs/cmu-arctic-xvectors"
       {["split" := PStr "validation"]} = Ok ds →
     ds_row ds 7305 = Ok rec →
     py_getitem_str rec "xvector" = Ok xv →
     torch_tensor W xv = Ok t →
     preprocess W self text params log
     = ((log ++ [EvProcessor (processor self) []
                   {["text" := text; "return_tensors" := PStr "pt"]};
                 EvLoadDataset "Matthijs/cmu-arctic-xvectors"
                   {["split" := PStr "validation"]}])%list,
        Ok {["input_ids" := ids;
             "speaker_embeddings" := PTensor (unsqueeze0 t)]}))
  ∧ (∀ log' out,
       preprocess W self text params log = (log', Ok out) →
       ∃ ds rec xv t,
         load_dataset W "Matthijs/cmu-arctic-xvectors"
           {["split" := PStr "validation"]} = Ok ds
         ∧ ds_row ds 7305 = Ok rec
         ∧ py_getitem_str rec "xvector" = Ok xv
         ∧ torch_tensor W xv = Ok t
         ∧ out !! "speaker_embeddings" = Some (PTensor (unsqueeze0 t))).
Proof.
  intros Hfam Hnone. unfold preprocess. rewrite Hfam, Hnone. simpl. split.
  - intros inputs ids ds rec xv t Hproc Hids Hds Hrow Hxv Ht.
    erewrite bind_Ok; [| unfold processor_apply, call; by rewrite Hproc].
    erewrite bind_Ok; [| by eapply default_speaker_embeddings_run].
    unfold bind, lift, ret, dict_getitem. rewrite Hids.
    by rewrite <- (assoc_L (++)).
  - intros log' out H.
    apply bind_inv_Ok in H as (l1 & inputs & _ & H).
    apply bind_inv_Ok in H as (l2 & se & Hse & H).
    apply bind_inv_Ok in H as (l3 & ids & _ & H).
    injection H as _ <-.
    apply default_speaker_embeddings_inv in Hse as (ds & rec & xv & t & ? & ? & ? & ? & ->).
    exists ds, rec, xv, t. repeat (split; [done |]).
    rewrite lookup_insert_ne by done. by rewrite lookup_singleton_eq.
Qed.

Lemma speecht5_default_embeddings_witness :
  preprocess stub_world speecht5_self hello ∅ []
  = ([EvProcessor speecht5_processor []
        {["text" := hello; "return_tensors" := PStr "pt"]};
      EvLoadDataset "Matthijs/cmu-arctic-xvectors"
        {["split" := PStr "validation"]}],
     Ok {["input_ids" := PList [];
          "speaker_embeddings"
            := PTensor (TDim [TDim [TScalar 7305; TScalar 7306]])]}).
Proof.
  destruct (speecht5_default_embeddings stub_world speecht5_self hello ∅ [])
    as [H _]; [reflexivity | reflexivity |].
  eapply H; reflexivity.
Defined.

(** ** Generation *)

Lemma forward_generic_run W self mi mi' kw log :
  is_speecht5 self = false →
  narrow_speaker_embeddings self mi = Ok mi' →
  mi' ##ₘ kw →
  _forward W self mi kw log
  = ((log ++ [EvGenerate (mi' ∪ kw)])%list, generate W (model self) (mi' ∪ kw)).
Proof.
  intros Hfam Hnarrow Hdisj. unfold _forward. rewrite Hfam.
  unfold bind, lift. rewrite Hnarrow, merge_kwargs_disjoint by done. done.
Qed.

Lemma forward_generic_raise W self mi kw log e :
  is_speecht5 self = false →
  narrow_speaker_embeddings self mi = Raise e →
  _forward W self mi kw log = (log, Raise e).
Proof.
  intros Hfam Hnarrow. unfold _forward. rewrite Hfam.
  unfold bind, lift. by rewrite Hnarrow.
Qed.

(** A forwarded keyword parameter that repeats a prepared-input key is
    rejected before [generate] is entered. *)
Lemma forward_generic_clash W self mi mi' kw log :
  is_speecht5 self = false →
  narrow_speaker_embeddings self mi = Ok mi' →
  ¬ mi' ##ₘ kw →
  _forward W self mi kw log = (log, Raise TypeError).
Proof.
  intros Hfam Hnarrow Hclash. unfold _forward. rewrite Hfam.
  unfold bind, lift, merge_kwargs. by rewrite Hnarrow, decide_False.
Qed.

(** The speecht5 branch never looks at the forwarded keyword parameters. *)
Lemma forward_speecht5_run W self mi kw log ids se :
  is_speecht5 self = true →
  mi !! "input_ids" = Some ids →
  mi !! "speaker_embeddings" = Some se →
  _forward W self mi kw log
  = ((log ++ [EvGenerateSpeech [ids; se] {["vocoder" := vocoder self]}])%list,
     generate_speech W (model self) [ids; se] {["vocoder" := vocoder self]}).
Proof.
  intros Hfam Hids Hse. unfold _forward. rewrite Hfam.
  unfold bind, lift, dict_getitem. by rewrite Hids, Hse.
Qed.

Lemma single_embedding_flags self :
  constructed self →
  model_type self ∈ ONLY_ONE_SPEAKER_EMBEDDINGS_LIST →
  model_type self ≠ "speecht5" →
  is_speecht5 self = false ∧ only_one_speaker_embeddings self = true.
Proof.
  intros (_ & Hs & Ho) Hin Hne. rewrite Hs, Ho.
  by rewrite bool_decide_eq_false_2, bool_decide_eq_true_2.
Qed.

(** C1: for a family of the single-embedding list other than speecht5, with
    [key] the conditioning key of the family: when the tokenized text has
    batch size above 1 and the prepared inputs hold a value other than None
    under [key], [generate] is called with the first element of that value
    under [key] (and when the value has no first element the indexing error
    is raised and [generate] is not called); when the batch size is 1,
    [generate] is called with the prepared inputs unchanged. *)
Theorem forward_narrows_single_embedding W self mi kw log ids :
  constructed self →
  model_type self ∈ ONLY_ONE_SPEAKER_EMBEDDINGS_LIST →
  model_type self ≠ "speecht5" →
  mi !! "input_ids" = Some ids →
  mi ##ₘ kw →
  (∀ n v, py_len ids = Ok n → 1 < n →
     mi !! forward_embeddings_key self = Some v → v ≠ PNone →
     (∀ first, py_getitem0 v = Ok first →
        _forward W self mi kw log
        = ((log ++ [EvGenerate (<[forward_embeddings_key self := first]> (mi ∪ kw))])%list,
           generate W (model self)
             (<[forward_embeddings_key self := first]> (mi ∪ kw)))
        ∧ <[forward_embeddings_key self := first]> (mi ∪ kw)
            !! forward_embeddings_key self = Some first)
     ∧ (∀ e, py_getitem0 v = Raise e →
          _forward W self mi kw log = (log, Raise e)))
  ∧ (py_len ids = Ok 1 →
     _forward W self mi kw log
     = ((log ++ [EvGenerate (mi ∪ kw)])%list, generate W (model self) (mi ∪ kw))
     ∧ ∀ k v, mi !! k = Some v → (mi ∪ kw) !! k = Some v).
Proof.
  intros Hc Hin Hne Hids Hdisj.
  destruct (single_embedding_flags self Hc Hin Hne) as [Hs Ho].
  split.
  - intros n v Hlen Hn Hv Hvne.
    assert (Hnarrow : narrow_speaker_embeddings self mi
              = match py_getitem0 v with
                | Ok first => Ok (<[forward_embeddings_key self := first]> mi)
                | Raise e => Raise e
                end).
    { unfold narrow_speaker_embeddings, forward_embeddings_key in *.
      rewrite Ho. unfold dict_getitem, dict_get. rewrite Hids, Hlen, Hv. simpl.
      rewrite bool_decide_eq_true_2 by done.
      apply is_None_false in Hvne. by rewrite Hvne. }
    split.
    + intros first Hfirst. rewrite Hfirst in Hnarrow. split.
      * erewrite forward_generic_run; [| done | done |].
        -- by rewrite insert_union_l.
        -- apply map_disjoint_insert_l. split; [| done].
           by eapply map_disjoint_Some_l.
      * by rewrite lookup_insert_eq.
    + intros e He. rewrite He in Hnarrow. by apply forward_generic_raise.
  - intros Hlen. split.
    + apply forward_generic_run; [done | | done].
      unfold narrow_speaker_embeddings. rewrite Ho.
      unfold dict_getitem. by rewrite Hids, Hlen.
    + intros k v Hk. by apply lookup_union_Some_l.
Qed.

Lemma forward_narrows_single_embedding_witness :
  _forward stub_world bark_self batch3_inputs sampling_kwargs []
  = ([EvGenerate (<["history_prompt" := PStr "a"]> (batch3_inputs ∪ sampling_kwargs))],
     generate stub_world (model bark_self)
       (<["history_prompt" := PStr "a"]> (batch3_inputs ∪ sampling_kwargs)))
  ∧ _forward stub_world bark_self batch1_inputs sampling_kwargs []
    = ([EvGenerate (batch1_inputs ∪ sampling_kwargs)],
       generate stub_world (model bark_self) (batch1_inputs ∪ sampling_kwargs)).
Proof.
  split.
  - destruct (forward_narrows_single_embedding stub_world bark_self batch3_inputs
                sampling_kwargs []
                (PList [PList [PInt 1]; PList [PInt 2]; PList [PInt 3]]))
      as [H _].
    + by vm_compute.
    + apply list_elem_of_In. by left.
    + discriminate.
    + by vm_compute.
    + apply (bool_decide_unpack _). by vm_compute.
    + destruct (H 3 (PList [PStr "a"; PStr "b"; PStr "c"])) as [Hfirst _].
      * reflexivity.
      * lia.
      * by vm_compute.
      * discriminate.
      * by apply (Hfirst (PStr "a")).
  - destruct (forward_narrows_single_embedding stub_world bark_self batch1_inputs
                sampling_kwargs [] (PList [PList [PInt 1]])) as [_ H].
    + by vm_compute.
    + apply list_elem_of_In. by left.
    + discriminate.
    + by vm_compute.
    + apply (bool_decide_unpack _). by vm_compute.
    + by apply H.
Defined.

(** ** Parameter routing *)

Lemma sanitize_parameters_split (generate_kwargs : pydict) :
  _sanitize_parameters generate_kwargs
  = ({["speaker_embeddings" := dict_get generate_kwargs "speaker_embeddings"]},
     delete "speaker_embeddings" generate_kwargs,
     ∅).
Proof.
  unfold _sanitize_parameters. do 2 f_equal.
  apply map_eq. intros k. destruct (decide (k = "speaker_embeddings")) as [-> | Hk].
  - rewrite lookup_delete_eq. apply map_lookup_filter_None. right.
    intros v _. simpl. by rewrite lookup_singleton_eq.
  - rewrite lookup_delete_ne by done.
    destruct (generate_kwargs !! k) as [v|] eqn:Hv.
    + apply map_lookup_filter_Some. split; [done |]. simpl.
      by rewrite lookup_singleton_ne.
    + apply map_lookup_filter_None. by left.
Qed.

(** Every routed generation parameter reaches [generate] unchanged on the
    branch of the other families. *)
Lemma forward_params_reach_generate W self mi mi' generate_kwargs log :
  is_speecht5 self = false →
  narrow_speaker_embeddings self mi = Ok mi' →
  mi' ##ₘ (_sanitize_parameters generate_kwargs).1.2 →
  ∃ args,
    _forward W self mi (_sanitize_parameters generate_kwargs).1.2 log
    = ((log ++ [EvGenerate args])%list, generate W (model self) args)
    ∧ ∀ k v, k ≠ "speaker_embeddings" → generate_kwargs !! k = Some v →
             args !! k = Some v.
Proof.
  intros Hfam Hnarrow Hdisj. eexists. split; [by apply forward_generic_run |].
  intros k v Hk Hv. rewrite sanitize_parameters_split in *. simpl in *.
  apply lookup_union_Some_r; [done |]. by rewrite lookup_delete_ne.
Qed.

(** C7, at the failing input: a speecht5 pipeline called with
    [threshold=0.3].  Routing sends "threshold" to generation time, and
    [_forward] then calls [generate_speech] with the token ids, the speaker
    embeddings and the vocoder only: "threshold" is not among the arguments
    the generation entry point receives. *)
Theorem speecht5_forward_drops_kwargs :
  (_sanitize_parameters threshold_kwargs).1.2 !! "threshold"
  = Some (PFloat 4599075939470750515)
  ∧ (_forward stub_world speecht5_self speecht5_inputs
       (_sanitize_parameters threshold_kwargs).1.2 []).1
    = [EvGenerateSpeech
         [PTensor (TDim [TDim [TScalar 4; TScalar 5]]);
          PTensor (TDim [TDim [TScalar 0; TScalar 1]])]
         {["vocoder" := PVocoder (HifiGan 16000 "cuda:0")]}]
  ∧ ({["vocoder" := PVocoder (HifiGan 16000 "cuda:0")]} : pydict) !! "threshold"
    = None.
Proof. split; [| split]; vm_compute; reflexivity. Qed.

(** * Further properties of the pipeline *)

(** ** Construction *)

Lemma sampling_rate_from_config_cases (config0 : pydict) :
  sampling_rate_from_config config0
  = if is_None (dict_get config0 "sampling_rate")
    then dict_get config0 "sample_rate"
    else dict_get config0 "sampling_rate".
Proof.
  unfold sampling_rate_from_config, sampling_rate_step. simpl.
  destruct (is_None (dict_get config0 "sampling_rate")); [| done].
  by destruct (dict_get config0 "sample_rate").
Qed.

(** X1: for a family other than speecht5, an explicit [sampling_rate]
    argument is the resolved rate, whatever the static and generation
    configurations hold, and nothing is loaded. *)
Theorem explicit_sampling_rate_wins W b a log :
  cfg_model_type (config (base_model b)) ≠ "speecht5" →
  base_framework b ≠ "tf" →
  arg_sampling_rate a ≠ PNone →
  ∃ self, __init__ W b a log = (log, Ok self)
          ∧ sampling_rate self = arg_sampling_rate a.
Proof.
  intros Hfam Htf Hrate.
  destruct (init_generic W b a log Htf Hfam) as (self & Hrun & _ & _ & Hsr).
  exists self. split; [done |].
  apply is_None_false in Hrate. by rewrite Hrate in Hsr.
Qed.

Lemma explicit_sampling_rate_wins_witness :
  ∃ self, __init__ stub_world two_rates_base explicit_rate_kwargs []
          = ([], Ok self)
          ∧ sampling_rate self = PInt 48000.
Proof.
  apply (explicit_sampling_rate_wins stub_world two_rates_base
           explicit_rate_kwargs []); discriminate.
Defined.

Lemma init_rate_from_sample_rate W b a log :
  cfg_model_type (config (base_model b)) ≠ "speecht5" →
  base_framework b ≠ "tf" →
  arg_sampling_rate a = PNone →
  dict_get (merged_config (base_model b)) "sampling_rate" = PNone →
  ∃ self, __init__ W b a log = (log, Ok self)
          ∧ sampling_rate self
            = dict_get (merged_config (base_model b)) "sample_rate".
Proof.
  intros Hfam Htf Hrate Hnone.
  destruct (init_generic W b a log Htf Hfam) as (self & Hrun & _ & _ & Hsr).
  exists self. split; [done |].
  rewrite Hsr, Hrate. simpl.
  by rewrite sampling_rate_from_config_cases, Hnone.
Qed.

(** X2: without an explicit rate, when the merged configuration has no
    "sampling_rate" (or None under it), the resolved rate is what the merged
    configuration holds under "sample_rate", and None when that is missing
    too: the construction still succeeds, with the rate unresolved. *)
Theorem sampling_rate_falls_back_to_sample_rate W b a log :
  cfg_model_type (config (base_model b)) ≠ "speecht5" →
  base_framework b ≠ "tf" →
  arg_sampling_rate a = PNone →
  dict_get (merged_config (base_model b)) "sampling_rate" = PNone →
  ∃ self, __init__ W b a log = (log, Ok self)
          ∧ sampling_rate self
            = dict_get (merged_config (base_model b)) "sample_rate".
Proof. apply init_rate_from_sample_rate. Qed.

Lemma sampling_rate_falls_back_to_sample_rate_witness :
  (∃ self, __init__ stub_world sample_rate_only_base no_kwargs [] = ([], Ok self)
           ∧ sampling_rate self = PInt 32000)
  ∧ (∃ self, __init__ stub_world (Base "pt" (model_of "vits" ∅ None)) no_kwargs []
             = ([], Ok self)
             ∧ sampling_rate self = PNone).
Proof.
  split.
  - destruct (sampling_rate_falls_back_to_sample_rate stub_world
                sample_rate_only_base no_kwargs [])
      as (self & Hrun & Hsr); [discriminate | discriminate | done | done |].
    exists self. split; [exact Hrun | exact Hsr].
  - destruct (sampling_rate_falls_back_to_sample_rate stub_world
                (Base "pt" (model_of "vits" ∅ None)) no_kwargs [])
      as (self & Hrun & Hsr); [discriminate | discriminate | done | done |].
    exists self. split; [exact Hrun | exact Hsr].
Defined.

(** X3: the generation configuration overrides the static one entry by
    entry, with None values too: a generation configuration holding None
    under "sampling_rate" hides the static "sampling_rate", and the resolved
    rate is then the merged "sample_rate" (None if there is none). *)
Theorem generation_config_None_hides_static_rate W b a log gen s :
  cfg_model_type (config (base_model b)) ≠ "speecht5" →
  base_framework b ≠ "tf" →
  arg_sampling_rate a = PNone →
  cfg_to_dict (config (base_model b)) !! "sampling_rate" = Some s →
  generation_config (base_model b) = Some gen →
  gen !! "sampling_rate" = Some PNone →
  ∃ self, __init__ W b a log = (log, Ok self)
          ∧ sampling_rate self
            = dict_get (merged_config (base_model b)) "sample_rate".
Proof.
  intros Hfam Htf Hrate _ Hgen Hmask.
  apply init_rate_from_sample_rate; try done.
  unfold dict_get, merged_config. rewrite Hgen.
  by rewrite (lookup_union_Some_l _ _ _ _ Hmask).
Qed.

Lemma generation_config_None_hides_static_rate_witness :
  ∃ self, __init__ stub_world masked_rate_base no_kwargs [] = ([], Ok self)
          ∧ sampling_rate self = PNone.
Proof.
  destruct (generation_config_None_hides_static_rate stub_world masked_rate_base
              no_kwargs [] {["sampling_rate" := PNone]} (PInt 16000))
    as (self & Hrun & Hsr);
    [discriminate | discriminate | done | done | done | done |].
  exists self. split; [exact Hrun | exact Hsr].
Defined.

(** X4: a construction succeeds exactly when the framework is not "tf" and
    either the family is not speecht5, or the vocoder argument is a
    [SpeechT5HifiGan] instance, or it is a string from which a vocoder
    loads. *)
Theorem construction_succeeds_iff W b a log :
  (∃ log' self, __init__ W b a log = (log', Ok self))
  ↔ base_framework b ≠ "tf"
    ∧ (cfg_model_type (config (base_model b)) ≠ "speecht5"
       ∨ (∃ h, arg_vocoder a = PVocoder h)
       ∨ (∃ repo h, arg_vocoder a = PStr repo ∧ from_pretrained W repo = Ok h)).
Proof.
  split.
  - intros (log' & self & Hrun).
    destruct (init_constructed _ _ _ _ _ _ Hrun) as (Htf & _). split; [done |].
    destruct (decide (cfg_model_type (config (base_model b)) = "speecht5"))
      as [Hfam | Hfam]; [| by left].
    right.
    destruct (arg_vocoder a) as [| | | |repo| | | |h|] eqn:Hvoc;
      try (destruct (init_speecht5_invalid W b a log Hfam) as [msg Hbad];
           [by rewrite Hvoc | by rewrite Hvoc | congruence]).
    + right. exists repo.
      rewrite (init_speecht5_str W b a log repo Hfam Htf Hvoc) in Hrun.
      destruct (from_pretrained W repo) as [h|e]; [by exists h | discriminate].
    + left. by exists h.
  - intros (Htf & [Hfam | [(h & Hvoc) | (repo & h & Hvoc & Hload)]]).
    + destruct (init_generic W b a log Htf Hfam) as (self & Hrun & _).
      by exists log, self.
    + destruct (decide (cfg_model_type (config (base_model b)) = "speecht5"))
        as [Hfam | Hfam].
      * eexists _, _. by apply init_speecht5_instance.
      * destruct (init_generic W b a log Htf Hfam) as (self & Hrun & _).
        by exists log, self.
    + destruct (decide (cfg_model_type (config (base_model b)) = "speecht5"))
        as [Hfam | Hfam].
      * eexists _, _.
        by rewrite (init_speecht5_str W b a log repo Hfam Htf Hvoc), Hload.
      * destruct (init_generic W b a log Htf Hfam) as (self & Hrun & _).
        by exists log, self.
Qed.

(** X5: for a family other than speecht5 the constructor calls no
    collaborator and checks nothing about the vocoder: whatever was passed
    (a string is not loaded) is stored as it is, like the processor. *)
Theorem generic_construction_stores_arguments W b a log log' self :
  cfg_model_type (config (base_model b)) ≠ "speecht5" →
  __init__ W b a log = (log', Ok self) →
  log' = log
  ∧ vocoder self = arg_vocoder a
  ∧ processor self = arg_processor a
  ∧ model self = base_model b.
Proof.
  intros Hfam Hrun.
  destruct (init_constructed _ _ _ _ _ _ Hrun) as (Htf & _ & Hmodel).
  destruct (init_generic W b a log Htf Hfam) as (self' & Hrun' & Hvoc & Hproc & _).
  rewrite Hrun in Hrun'. injection Hrun' as -> ->. done.
Qed.

Lemma generic_construction_stores_arguments_witness :
  ∃ self, __init__ offline_world bark_base explicit_rate_kwargs [] = ([], Ok self)
          ∧ vocoder self = PStr hifigan_repo
          ∧ processor self = bark_processor.
Proof.
  assert (Hrun : ∃ self, __init__ offline_world bark_base explicit_rate_kwargs []
                         = ([], Ok self))
    by (vm_compute; eexists; reflexivity).
  destruct Hrun as [self Hrun]. exists self. split; [exact Hrun |].
  destruct (generic_construction_stores_arguments offline_world bark_base
              explicit_rate_kwargs [] [] self ltac:(discriminate) Hrun)
    as (_ & Hvoc & Hproc & _).
  split; [exact Hvoc | exact Hproc].
Defined.

(** X6: the family flags of every constructed pipeline: the family is the
    model's, [is_speecht5] holds exactly for "speecht5",
    [only_one_speaker_embeddings] exactly for "bark", and never both. *)
Theorem constructed_family_flags W b a log log' self :
  __init__ W b a log = (log', Ok self) →
  model_type self = cfg_model_type (config (base_model b))
  ∧ (is_speecht5 self = true ↔ model_type self = "speecht5")
  ∧ (only_one_speaker_embeddings self = true ↔ model_type self = "bark")
  ∧ is_speecht5 self && only_one_speaker_embeddings self = false.
Proof.
  intros Hrun.
  destruct (init_constructed _ _ _ _ _ _ Hrun) as (_ & (Hty & Hs & Ho) & Hmodel).
  rewrite Hs, Ho, Hty, Hmodel. split; [done |].
  split; [apply bool_decide_eq_true |].
  assert (Hbark : cfg_model_type (config (base_model b))
                    ∈ ONLY_ONE_SPEAKER_EMBEDDINGS_LIST
                  ↔ cfg_model_type (config (base_model b)) = "bark").
  { unfold ONLY_ONE_SPEAKER_EMBEDDINGS_LIST. apply list_elem_of_singleton. }
  split.
  - rewrite bool_decide_eq_true. exact Hbark.
  - apply andb_false_iff.
    destruct (decide (cfg_model_type (config (base_model b)) = "speecht5"))
      as [Heq | Hne].
    + right. apply bool_decide_eq_false. rewrite Hbark, Heq. discriminate.
    + left. by apply bool_decide_eq_false.
Qed.

Lemma constructed_family_flags_witness :
  ∃ self, __init__ stub_world bark_base no_kwargs [] = ([], Ok self)
          ∧ (only_one_speaker_embeddings self = true ↔ model_type self = "bark")
          ∧ is_speecht5 self && only_one_speaker_embeddings self = false.
Proof.
  assert (Hrun : ∃ self, __init__ stub_world bark_base no_kwargs [] = ([], Ok self))
    by (vm_compute; eexists; reflexivity).
  destruct Hrun as [self Hrun]. exists self. split; [exact Hrun |].
  destruct (constructed_family_flags stub_world bark_base no_kwargs [] [] self Hrun)
    as (_ & _ & Ho & Hx).
  split; [exact Ho | exact Hx].
Defined.

(** ** Parameter routing *)

(** X7: routing loses nothing.  When the caller supplies
    "speaker_embeddings", the preparation parameters hold exactly that
    entry, the generation parameters never hold it, the two groups share no
    key and together they are the caller's keyword parameters again. *)
Theorem sanitize_parameters_round_trip (generate_kwargs : pydict) v :
  generate_kwargs !! "speaker_embeddings" = Some v →
  (_sanitize_parameters generate_kwargs).1.1 = {["speaker_embeddings" := v]}
  ∧ (_sanitize_parameters generate_kwargs).1.2 !! "speaker_embeddings" = None
  ∧ (_sanitize_parameters generate_kwargs).1.1
      ##ₘ (_sanitize_parameters generate_kwargs).1.2
  ∧ (_sanitize_parameters generate_kwargs).1.1
      ∪ (_sanitize_parameters generate_kwargs).1.2
    = generate_kwargs.
Proof.
  intros Hv. rewrite sanitize_parameters_split. simpl.
  unfold dict_get. rewrite Hv. simpl.
  split; [done |]. split; [apply lookup_delete_eq |].
  split; [apply map_disjoint_singleton_l, lookup_delete_eq |].
  rewrite <- insert_union_singleton_l, insert_delete_eq. by apply insert_id.
Qed.

Lemma sanitize_parameters_round_trip_witness :
  (_sanitize_parameters call_kwargs).1.1
  = {["speaker_embeddings" := PStr "v2/en_speaker_1"]}
  ∧ (_sanitize_parameters call_kwargs).1.1 ∪ (_sanitize_parameters call_kwargs).1.2
    = call_kwargs.
Proof.
  destruct (sanitize_parameters_round_trip call_kwargs (PStr "v2/en_speaker_1"))
    as (Hpre & _ & _ & Hunion); [reflexivity |].
  split; [exact Hpre | exact Hunion].
Defined.

(** X8: passing [speaker_embeddings=None] is routed exactly like not
    passing it at all. *)
Theorem explicit_None_routed_like_omitted (generate_kwargs : pydict) :
  _sanitize_parameters (<["speaker_embeddings" := PNone]> generate_kwargs)
  = _sanitize_parameters (delete "speaker_embeddings" generate_kwargs).
Proof.
  rewrite !sanitize_parameters_split. unfold dict_get.
  rewrite lookup_insert_eq, lookup_delete_eq. simpl.
  by rewrite delete_insert_eq, delete_delete_eq.
Qed.

(** ** Input preparation *)

Lemma preprocess_speecht5_given W self text params log v :
  is_speecht5 self = true →
  dict_get params "speaker_embeddings" = v →
  v ≠ PNone →
  preprocess W self text params log
  = ((log ++ [EvProcessor (processor self) []
                {["text" := text; "return_tensors" := PStr "pt"]}])%list,
     match processor_call W (processor self) []
             {["text" := text; "return_tensors" := PStr "pt"]} with
     | Ok inputs =>
         match inputs !! "input_ids" with
         | Some ids => Ok {["input_ids" := ids; "speaker_embeddings" := v]}
         | None => Raise KeyError
         end
     | Raise e => Raise e
     end).
Proof.
  intros Hfam Hv Hne. unfold preprocess. rewrite Hfam, Hv.
  apply is_None_false in Hne. rewrite Hne.
  unfold bind, processor_apply, call, ret, lift, dict_getitem.
  destruct (processor_call W (processor self) [] _) as [inputs | e]; [| done].
  by destruct (inputs !! "input_ids").
Qed.

(** X9: for speecht5, a supplied conditioning value is used as it is: the
    processor is called once with [text=...] and [return_tensors="pt"], no
    dataset is loaded, and the prepared inputs hold exactly the token ids of
    the processor and the supplied value, whatever else the processor
    returned and whatever other keyword parameters were passed. *)
Theorem speecht5_given_embeddings W self text params log v inputs ids :
  is_speecht5 self = true →
  params !! "speaker_embeddings" = Some v →
  v ≠ PNone →
  processor_call W (processor self) []
    {["text" := text; "return_tensors" := PStr "pt"]} = Ok inputs →
  inputs !! "input_ids" = Some ids →
  preprocess W self text params log
  = ((log ++ [EvProcessor (processor self) []
                {["text" := text; "return_tensors" := PStr "pt"]}])%list,
     Ok {["input_ids" := ids; "speaker_embeddings" := v]}).
Proof.
  intros Hfam Hv Hne Hproc Hids.
  rewrite (preprocess_speecht5_given W self text params log v); try done.
  - by rewrite Hproc, Hids.
  - unfold dict_get. by rewrite Hv.
Qed.

Lemma speecht5_given_embeddings_witness :
  preprocess stub_world speecht5_self hello
    {["speaker_embeddings" := xvector; "padding" := PBool true]} []
  = ([EvProcessor speecht5_processor []
        {["text" := hello; "return_tensors" := PStr "pt"]}],
     Ok {["input_ids" := PList []; "speaker_embeddings" := xvector]}).
Proof.
  apply (speecht5_given_embeddings stub_world speecht5_self hello
           {["speaker_embeddings" := xvector; "padding" := PBool true]} []
           xvector
           (<["input_ids" := PList []]>
              {["text" := hello; "return_tensors" := PStr "pt"]})
           (PList []));
    (discriminate || reflexivity).
Defined.



(** X11: for speecht5, a failure of the processor is raised unchanged, and
    the default speaker embeddings are not fetched first: the processor is
    the only collaborator called. *)
Theorem speecht5_processor_failure_propagates W self text params log e :
  is_speecht5 self = true →
  processor_call W (processor self) []
    {["text" := text; "return_tensors" := PStr "pt"]} = Raise e →
  preprocess W self text params log
  = ((log ++ [EvProcessor (processor self) []
                {["text" := text; "return_tensors" := PStr "pt"]}])%list,
     Raise e).
Proof.
  intros Hfam Hproc. unfold preprocess. rewrite Hfam.
  unfold bind, processor_apply, call. by rewrite Hproc.
Qed.

Lemma speecht5_processor_failure_propagates_witness :
  preprocess broken_processor_world speecht5_self hello ∅ []
  = ([EvProcessor speecht5_processor []
        {["text" := hello; "return_tensors" := PStr "pt"]}],
     Raise (ExternalError "processor")).
Proof.
  apply (speecht5_processor_failure_propagates broken_processor_world
           speecht5_self hello ∅ []); reflexivity.
Defined.

(** X12: for speecht5 with a supplied conditioning value, a processor
    output without "input_ids" makes input preparation raise [KeyError]. *)
Theorem speecht5_missing_input_ids W self text params log v inputs :
  is_speecht5 self = true →
  params !! "speaker_embeddings" = Some v →
  v ≠ PNone →
  processor_call W (processor self) []
    {["text" := text; "return_tensors" := PStr "pt"]} = Ok inputs →
  inputs !! "input_ids" = None →
  preprocess W self text params log
  = ((log ++ [EvProcessor (processor self) []
                {["text" := text; "return_tensors" := PStr "pt"]}])%list,
     Raise KeyError).
Proof.
  intros Hfam Hv Hne Hproc Hids.
  rewrite (preprocess_speecht5_given W self text params log v); try done.
  - by rewrite Hproc, Hids.
  - unfold dict_get. by rewrite Hv.
Qed.

Lemma speecht5_missing_input_ids_witness :
  preprocess no_ids_world speecht5_self hello
    {["speaker_embeddings" := xvector]} []
  = ([EvProcessor speecht5_processor []
        {["text" := hello; "return_tensors" := PStr "pt"]}],
     Raise KeyError).
Proof.
  apply (speecht5_missing_input_ids no_ids_world speecht5_self hello
           {["speaker_embeddings" := xvector]} [] xvector
           {["text" := hello; "return_tensors" := PStr "pt"]});
    (discriminate || reflexivity).
Defined.

(** X13: for speecht5 without a conditioning value, a failure to fetch the
    default vector is raised unchanged, after the processor has been called:
    when the dataset does not load, and when it loads but has no row 7305. *)
Theorem speecht5_dataset_failure_propagates W self text params log inputs e :
  is_speecht5 self = true →
  dict_get params "speaker_embeddings" = PNone →
  processor_call W (processor self) []
    {["text" := text; "return_tensors" := PStr "pt"]} = Ok inputs →
  load_dataset W "Matthijs/cmu-arctic-xvectors" {["split" := PStr "validation"]}
    = Raise e
  ∨ (∃ ds, load_dataset W "Matthijs/cmu-arctic-xvectors"
             {["split" := PStr "validation"]} = Ok ds
           ∧ ds_row ds 7305 = Raise e) →
  preprocess W self text params log
  = ((log ++ [EvProcessor (processor self) []
                {["text" := text; "return_tensors" := PStr "pt"]};
              EvLoadDataset "Matthijs/cmu-arctic-xvectors"
                {["split" := PStr "validation"]}])%list,
     Raise e).
Proof.
  intros Hfam Hnone Hproc Hfail. unfold preprocess. rewrite Hfam, Hnone. simpl.
  unfold bind, processor_apply, call. rewrite Hproc.
  unfold default_speaker_embeddings, datasets_load_dataset, bind, call, lift.
  unfold default_xvector_index. rewrite <- (assoc_L (++)). simpl.
  destruct Hfail as [-> | (ds & -> & ->)]; done.
Qed.

Lemma speecht5_dataset_failure_propagates_witness :
  preprocess offline_world speecht5_self hello ∅ []
  = ([EvProcessor speecht5_processor []
        {["text" := hello; "return_tensors" := PStr "pt"]};
      EvLoadDataset "Matthijs/cmu-arctic-xvectors"
        {["split" := PStr "validation"]}],
     Raise (ExternalError "offline")).
Proof.
  apply (speecht5_dataset_failure_propagates offline_world speecht5_self hello
           ∅ []
           (<["input_ids" := PList []]>
              {["text" := hello; "return_tensors" := PStr "pt"]}));
    [reflexivity | reflexivity | reflexivity | by left].
Defined.

(** X14: for "bark", input preparation given a keyword parameter
    "voice_preset" of its own raises [TypeError] (the key would be passed
    twice) and the processor is not called. *)
Theorem bark_duplicate_voice_preset W self text params log :
  is_speecht5 self = false →
  cfg_model_type (config (model self)) = "bark" →
  is_Some (params !! "voice_preset") →
  preprocess W self text params log = (log, Raise TypeError).
Proof.
  intros Hfam Hbark [v Hv]. unfold preprocess. rewrite Hfam.
  rewrite decide_True by done. unfold bind, lift, merge_kwargs.
  rewrite decide_False; [done |].
  intros Hdisj. apply map_disjoint_singleton_l in Hdisj.
  rewrite lookup_delete_ne in Hdisj by done. congruence.
Qed.

Lemma bark_duplicate_voice_preset_witness :
  preprocess stub_world bark_self hello
    {["speaker_embeddings" := PStr "v2/en_speaker_1";
      "voice_preset" := PStr "v2/en_speaker_2"]} []
  = ([], Raise TypeError).
Proof.
  apply (bark_duplicate_voice_preset stub_world bark_self hello); try reflexivity.
  by eexists.
Defined.

(** X15: through routing, the processor of a family other than speecht5
    receives the text and one keyword only, the conditioning value under the
    key of the family ("voice_preset" for "bark", "speaker_embeddings"
    otherwise): no other keyword parameter of the call reaches the
    processor, and the call is never rejected for a repeated key. *)
Theorem routed_preprocess_calls_processor W self text generate_kwargs log :
  is_speecht5 self = false →
  preprocess W self text (_sanitize_parameters generate_kwargs).1.1 log
  = ((log ++ [EvProcessor (processor self) [text]
                {[processor_embeddings_key self
                    := dict_get generate_kwargs "speaker_embeddings"]}])%list,
     processor_call W (processor self) [text]
       {[processor_embeddings_key self
           := dict_get generate_kwargs "speaker_embeddings"]}).
Proof.
  intros Hfam. rewrite sanitize_parameters_split. simpl.
  rewrite preprocess_generic; [| done |].
  - unfold dict_get at 1 3. rewrite lookup_singleton_eq. simpl.
    by rewrite delete_singleton_eq, insert_empty.
  - rewrite delete_singleton_eq. apply lookup_empty.
Qed.

Lemma routed_preprocess_calls_processor_witness :
  preprocess stub_world bark_self hello (_sanitize_parameters call_kwargs).1.1 []
  = ([EvProcessor bark_processor [hello]
        {["voice_preset" := PStr "v2/en_speaker_1"]}],
     processor_call stub_world bark_processor [hello]
       {["voice_preset" := PStr "v2/en_speaker_1"]}).
Proof.
  apply (routed_preprocess_calls_processor stub_world bark_self hello
           call_kwargs []).
  reflexivity.
Defined.

(** ** Generation *)

Lemma narrow_speaker_embeddings_inv self mi mi' :
  narrow_speaker_embeddings self mi = Ok mi' →
  mi' = mi ∨ ∃ key v first, mi !! key = Some v ∧ mi' = <[key := first]> mi.
Proof.
  unfold narrow_speaker_embeddings.
  destruct (only_one_speaker_embeddings self); [| intros [= <-]; by left].
  destruct (dict_getitem mi "input_ids") as [ids|]; [| discriminate].
  destruct (py_len ids) as [n|]; [| discriminate].
  destruct (_ && _); [| intros [= <-]; by left].
  unfold dict_getitem.
  destruct (mi !! _) as [v|] eqn:Hv; [| discriminate].
  destruct (py_getitem0 v) as [first|]; [| discriminate].
  intros [= <-]. right. do 3 eexists. split; [exact Hv | reflexivity].
Qed.

(** X16: a family that is neither speecht5 nor in the single-embedding list
    is never narrowed: [generate] receives the prepared inputs and the
    forwarded keyword parameters as they are, for every batch size, and
    "input_ids" need not even be there. *)
Theorem other_families_pass_inputs_unchanged W self mi kw log :
  is_speecht5 self = false →
  only_one_speaker_embeddings self = false →
  mi ##ₘ kw →
  _forward W self mi kw log
  = ((log ++ [EvGenerate (mi ∪ kw)])%list, generate W (model self) (mi ∪ kw)).
Proof.
  intros Hfam Hone Hdisj. apply forward_generic_run; [done | | done].
  unfold narrow_speaker_embeddings. by rewrite Hone.
Qed.

Lemma other_families_pass_inputs_unchanged_witness :
  _forward stub_world vits_self
    {["speaker_embeddings" := PList [PStr "a"; PStr "b"]]} sampling_kwargs []
  = ([EvGenerate ({["speaker_embeddings" := PList [PStr "a"; PStr "b"]]}
                    ∪ sampling_kwargs)],
     generate stub_world (model vits_self)
       ({["speaker_embeddings" := PList [PStr "a"; PStr "b"]]} ∪ sampling_kwargs)).
Proof.
  apply (other_families_pass_inputs_unchanged stub_world vits_self);
    try reflexivity.
  apply (bool_decide_unpack _). by vm_compute.
Defined.

(** X17: for a single-embedding family, prepared inputs without "input_ids"
    make [_forward] raise [KeyError]; [generate] is not called. *)
Theorem single_embedding_needs_input_ids W self mi kw log :
  is_speecht5 self = false →
  only_one_speaker_embeddings self = true →
  mi !! "input_ids" = None →
  _forward W self mi kw log = (log, Raise KeyError).
Proof.
  intros Hfam Hone Hids. apply forward_generic_raise; [done |].
  unfold narrow_speaker_embeddings, dict_getitem. by rewrite Hone, Hids.
Qed.

Lemma single_embedding_needs_input_ids_witness :
  _forward stub_world bark_self {["history_prompt" := PStr "a"]} sampling_kwargs []
  = ([], Raise KeyError).
Proof.
  apply (single_embedding_needs_input_ids stub_world bark_self); reflexivity.
Defined.

(** X18: for a single-embedding family nothing is narrowed when the batch
    has at most one element (an empty batch too) or when there is no
    conditioning value under the key of the family (absent, or None):
    [generate] receives the prepared inputs unchanged. *)
Theorem single_embedding_not_narrowed W self mi kw log ids n :
  is_speecht5 self = false →
  only_one_speaker_embeddings self = true →
  mi !! "input_ids" = Some ids →
  py_len ids = Ok n →
  (n ≤ 1)%nat ∨ dict_get mi (forward_embeddings_key self) = PNone →
  mi ##ₘ kw →
  _forward W self mi kw log
  = ((log ++ [EvGenerate (mi ∪ kw)])%list, generate W (model self) (mi ∪ kw)).
Proof.
  intros Hfam Hone Hids Hlen Hcase Hdisj.
  apply forward_generic_run; [done | | done].
  unfold narrow_speaker_embeddings, dict_getitem, forward_embeddings_key in *.
  rewrite Hone, Hids, Hlen.
  destruct Hcase as [Hn | Hnone].
  - rewrite bool_decide_eq_false_2 by lia. done.
  - rewrite Hnone. simpl. by rewrite andb_false_r.
Qed.

Lemma single_embedding_not_narrowed_witness :
  _forward stub_world bark_self
    {["input_ids" := PList [PList [PInt 1]; PList [PInt 2]]]} sampling_kwargs []
  = ([EvGenerate ({["input_ids" := PList [PList [PInt 1]; PList [PInt 2]]]}
                    ∪ sampling_kwargs)],
     generate stub_world (model bark_self)
       ({["input_ids" := PList [PList [PInt 1]; PList [PInt 2]]]}
          ∪ sampling_kwargs)).
Proof.
  apply (single_embedding_not_narrowed stub_world bark_self
           {["input_ids" := PList [PList [PInt 1]; PList [PInt 2]]]}
           sampling_kwargs [] (PList [PList [PInt 1]; PList [PInt 2]]) 2);
    try reflexivity.
  - by right.
  - apply (bool_decide_unpack _). by vm_compute.
Defined.

(** X19: outside speecht5, a forwarded keyword parameter that repeats a key
    of the prepared inputs never reaches [generate]: [_forward] raises
    without calling it. *)
Theorem repeated_keyword_never_reaches_generate W self mi kw log :
  is_speecht5 self = false →
  ¬ mi ##ₘ kw →
  ∃ e, _forward W self mi kw log = (log, Raise e).
Proof.
  intros Hfam Hclash.
  destruct (narrow_speaker_embeddings self mi) as [mi' | e] eqn:Hnarrow.
  - exists TypeError. eapply forward_generic_clash; [done | done |].
    intros Hdisj. apply Hclash.
    destruct (narrow_speaker_embeddings_inv _ _ _ Hnarrow)
      as [-> | (key & v & first & Hv & ->)]; [done |].
    by apply map_disjoint_insert_l in Hdisj as [_ Hdisj].
  - exists e. by apply forward_generic_raise.
Qed.

Lemma repeated_keyword_never_reaches_generate_witness :
  ∃ e, _forward stub_world bark_self batch3_inputs
         {["input_ids" := PList []]} []
       = ([], Raise e).
Proof.
  apply (repeated_keyword_never_reaches_generate stub_world bark_self);
    [reflexivity |].
  intros Hdisj. apply (bool_decide_pack _) in Hdisj. by vm_compute in Hdisj.
Defined.

(** X20: outside speecht5, whenever routed generation parameters lead to a
    call of [generate], every keyword parameter of the caller other than
    "speaker_embeddings" is among its arguments with its value unchanged,
    and so is every prepared input other than the narrowed conditioning
    value; when no call is made, no collaborator was called at all. *)
Theorem routed_kwargs_reach_generate W self mi generate_kwargs log log' r :
  is_speecht5 self = false →
  _forward W self mi (_sanitize_parameters generate_kwargs).1.2 log = (log', r) →
  log' = log
  ∨ ∃ args,
      log' = (log ++ [EvGenerate args])%list
      ∧ r = generate W (model self) args
      ∧ (∀ k v, k ≠ "speaker_embeddings" → generate_kwargs !! k = Some v →
                args !! k = Some v)
      ∧ (∀ k v, k ≠ forward_embeddings_key self → mi !! k = Some v →
                args !! k = Some v).
Proof.
  intros Hfam. rewrite sanitize_parameters_split. simpl. intros Hrun.
  destruct (narrow_speaker_embeddings self mi) as [mi' | e] eqn:Hnarrow.
  - destruct (decide (mi' ##ₘ delete "speaker_embeddings" generate_kwargs))
      as [Hdisj | Hclash].
    + rewrite (forward_generic_run W self mi mi' _ log Hfam Hnarrow Hdisj) in Hrun.
      injection Hrun as <- <-. right. eexists. split; [done |]. split; [done |].
      split.
      * intros k v Hk Hv. apply lookup_union_Some_r; [done |].
        by rewrite lookup_delete_ne.
      * intros k v Hk Hv. apply lookup_union_Some_l.
        revert Hnarrow. unfold narrow_speaker_embeddings, forward_embeddings_key in *.
        destruct (only_one_speaker_embeddings self); [| by intros [= <-]].
        destruct (dict_getitem mi "input_ids") as [ids|]; [| discriminate].
        destruct (py_len ids) as [n|]; [| discriminate].
        destruct (_ && _); [| by intros [= <-]].
        destruct (dict_getitem mi _) as [w|]; [| discriminate].
        destruct (py_getitem0 w) as [first|]; [| discriminate].
        intros [= <-]. by rewrite lookup_insert_ne.
    + rewrite (forward_generic_clash W self mi mi' _ log Hfam Hnarrow Hclash) in Hrun.
      injection Hrun as <- _. by left.
  - rewrite (forward_generic_raise W self mi _ log e Hfam Hnarrow) in Hrun.
    injection Hrun as <- _. by left.
Qed.

Lemma routed_kwargs_reach_generate_witness :
  ∃ args,
    _forward stub_world bark_self batch3_inputs
      (_sanitize_parameters call_kwargs).1.2 []
    = ([EvGenerate args], generate stub_world (model bark_self) args)
    ∧ args !! "do_sample" = Some (PBool true).
Proof.
  destruct (routed_kwargs_reach_generate stub_world bark_self batch3_inputs
              call_kwargs []
              [EvGenerate (<["history_prompt" := PStr "a"]>
                             (batch3_inputs ∪ {["do_sample" := PBool true]}))]
              (Ok (PTensor (TDim []))))
    as [Hnil | (args & Hlog & Hr & Hkw & _)].
  - reflexivity.
  - by vm_compute.
  - discriminate Hnil.
  - exists args. injection Hlog as <-. split; [by vm_compute |].
    apply Hkw; [discriminate | reflexivity].
Defined.



(** X22: on the speecht5 branch, prepared inputs without "input_ids" or
    without "speaker_embeddings" make [_forward] raise [KeyError];
    [generate_speech] is not called. *)
Theorem speecht5_forward_missing_key W self mi kw log :
  is_speecht5 self = true →
  mi !! "input_ids" = None ∨ mi !! "speaker_embeddings" = None →
  _forward W self mi kw log = (log, Raise KeyError).
Proof.
  intros Hfam Hmiss. unfold _forward. rewrite Hfam.
  unfold bind, lift, dict_getitem.
  destruct Hmiss as [-> | Hse]; [done |].
  rewrite Hse. by destruct (mi !! "input_ids").
Qed.

Lemma speecht5_forward_missing_key_witness :
  _forward stub_world speecht5_self {["input_ids" := PList []]} ∅ []
  = ([], Raise KeyError).
Proof.
  apply (speecht5_forward_missing_key stub_world speecht5_self).
  - reflexivity.
  - by right.
Defined.

(** X23: preparation and generation fit together on the speecht5 branch:
    whatever [preprocess] returns holds exactly "input_ids" and
    "speaker_embeddings", so that [_forward] on it raises no [KeyError] and
    calls [generate_speech] with these two values, in this order, and the
    vocoder of the pipeline as the only keyword; a supplied conditioning
    value arrives there unchanged. *)
Theorem speecht5_prepared_inputs_fit_forward W self text params kw log log1 out :
  is_speecht5 self = true →
  preprocess W self text params log = (log1, Ok out) →
  ∃ ids se,
    out = {["input_ids" := ids; "speaker_embeddings" := se]}
    ∧ _forward W self out kw log1
      = ((log1 ++ [EvGenerateSpeech [ids; se] {["vocoder" := vocoder self]}])%list,
         generate_speech W (model self) [ids; se] {["vocoder" := vocoder self]})
    ∧ (dict_get params "speaker_embeddings" ≠ PNone →
       se = dict_get params "speaker_embeddings").
Proof.
  intros Hfam Hrun. unfold preprocess in Hrun. rewrite Hfam in Hrun.
  apply bind_inv_Ok in Hrun as (l1 & inputs & _ & Hrun).
  apply bind_inv_Ok in Hrun as (l2 & se & Hse & Hrun).
  apply bind_inv_Ok in Hrun as (l3 & ids & _ & Hrun).
  injection Hrun as <- <-.
  exists ids, se. split; [done |]. split.
  - apply forward_speecht5_run; [done | apply lookup_insert_eq |].
    rewrite lookup_insert_ne by done. apply lookup_singleton_eq.
  - intros Hne. apply is_None_false in Hne. rewrite Hne in Hse.
    by injection Hse.
Qed.

Lemma speecht5_prepared_inputs_fit_forward_witness :
  ∃ ids se,
    _forward stub_world speecht5_self
      {["input_ids" := PList []; "speaker_embeddings" := xvector]}
      threshold_kwargs
      [EvProcessor speecht5_processor []
         {["text" := hello; "return_tensors" := PStr "pt"]}]
    = ([EvProcessor speecht5_processor []
          {["text" := hello; "return_tensors" := PStr "pt"]};
        EvGenerateSpeech [ids; se] {["vocoder" := vocoder speecht5_self]}],
       generate_speech stub_world (model speecht5_self) [ids; se]
         {["vocoder" := vocoder speecht5_self]})
    ∧ se = xvector.
Proof.
  destruct (speecht5_prepared_inputs_fit_forward stub_world speecht5_self hello
              {["speaker_embeddings" := xvector]} threshold_kwargs []
              [EvProcessor speecht5_processor []
                 {["text" := hello; "return_tensors" := PStr "pt"]}]
              {["input_ids" := PList []; "speaker_embeddings" := xvector]})
    as (ids & se & _ & Hrun & Hse); [reflexivity | reflexivity |].
  exists ids, se. split; [exact Hrun |]. apply Hse. discriminate.
Defined.
